(** * cadastr-parser: the resumable land-parcel scanner

    A shallow embedding of [src/new_cadastr_kvartal.py]: the class
    [LandParcelScanner] (its checkpoint store [save_progress] /
    [load_progress], the lookup [fetch_parcel_data], the extraction
    [parse_parcel_data], the loop [scan]) and the part of [main] that
    wires them together.

    Conventions of the embedding.
    - A Python [int] is a [Z]; [%] is [Z.modulo] (both take the sign of
      the divisor).
    - Every value that [json.load] or [response.json()] can hand to the
      program is a [json]; Python's [None] is [JNull], a [dict] with
      string keys is [JDict] (an association list, keys in insertion
      order), a [str] is the UTF-8 encoding of its code points.  JSON
      numbers with a fraction are not part of the model.
    - A Python expression that may raise is an [option]: [None] is "an
      exception was raised".  Each [try/except Exception] of the source is
      a [match] on that option.
    - Everything outside the process is explicit: the remote service, the
      wall clock and the pandas/openpyxl export are fields of a [Host];
      the files and the trace of requests and checkpoint dumps are a
      [World] that is threaded through the calls.
    - A [Host] is the environment of one run of the program, in which one
      scanner is constructed.  A statement about two runs (a run and the
      run that resumes it) takes two hosts and says what they share.
    - The module logs to the console and to the file
      [land_parcel_scan.log] (lines 15-23).  Logging is left out: the file
      map of a [World] says nothing about the path [log_file], and every
      statement about the files a call leaves alone excepts that path.
    - Writing the checkpoint file ([open] and [json.dump]) is taken to
      succeed; the export of the spreadsheet may fail.
    - The progress bar and [time.sleep] are left out. *)

From Stdlib Require Import ZArith List String Ascii Bool Lia DecimalString.
From Stdlib Require Import DecimalFacts DecimalPos DecimalZ.
From stdpp Require Import gmap strings.
Import ListNotations.

Open Scope string_scope.
Open Scope list_scope.
Open Scope Z_scope.

Set Warnings "-register-all".

(** ** Python values *)

Inductive json : Type :=
| JNull
| JBool (b : bool)
| JInt (z : Z)
| JStr (s : string)
| JList (l : list json)
| JDict (d : list (string * json)).

(** [x is None] *)
Definition is_None (v : json) : bool :=
  match v with JNull => true | _ => false end.

(** Truth value of an object, as [if x:] and [x or y] test it. *)
Definition truthy (v : json) : bool :=
  match v with
  | JNull => false
  | JBool b => b
  | JInt z => negb (z =? 0)
  | JStr s => negb (String.eqb s "")
  | JList l => match l with [] => false | _ => true end
  | JDict d => match d with [] => false | _ => true end
  end.

(** [x or y] *)
Definition py_or (x y : json) : json := if truthy x then x else y.

Fixpoint dict_lookup (k : string) (d : list (string * json)) : option json :=
  match d with
  | [] => None
  | (k', v) :: rest => if String.eqb k' k then Some v else dict_lookup k rest
  end.

(** [d[k] = v] on a dict: the value is replaced in place, a new key goes
    to the end. *)
Fixpoint dict_set (k : string) (v : json) (d : list (string * json))
  : list (string * json) :=
  match d with
  | [] => [(k, v)]
  | (k', v') :: rest =>
      if String.eqb k' k then (k', v) :: rest else (k', v') :: dict_set k v rest
  end.

(** [o.get(k, default)]; only a dict has the method (AttributeError). *)
Definition py_get (o : json) (k : string) (default : json) : option json :=
  match o with
  | JDict d => Some (match dict_lookup k d with Some v => v | None => default end)
  | _ => None
  end.

(** [o[k]] with a string key: KeyError on a dict without the key,
    TypeError on everything else. *)
Definition py_getitem (o : json) (k : string) : option json :=
  match o with
  | JDict d => dict_lookup k d
  | _ => None
  end.

(** A byte [10xxxxxx] continues a UTF-8 code point. *)
Definition is_continuation (a : ascii) : bool :=
  let n := Z.of_nat (nat_of_ascii a) in (128 <=? n) && (n <? 192).

Definition continues (s : string) : bool :=
  match s with String b _ => is_continuation b | EmptyString => false end.

(** The code points of a string, each as a string of its own. *)
Fixpoint code_points (s : string) : list string :=
  match s with
  | EmptyString => []
  | String a rest =>
      match code_points rest with
      | c :: cs =>
          if continues rest then String a c :: cs else String a "" :: c :: cs
      | [] => [String a ""]
      end
  end.

(** [len(x)]: TypeError on None, bool and int. *)
Definition py_len (v : json) : option Z :=
  match v with
  | JStr s => Some (Z.of_nat (List.length (code_points s)))
  | JList l => Some (Z.of_nat (List.length l))
  | JDict d => Some (Z.of_nat (List.length d))
  | _ => None
  end.

(** [for x in v]: the elements a loop visits; TypeError on None, bool and
    int.  A dict yields its keys, a string its characters. *)
Definition py_iter (v : json) : option (list json) :=
  match v with
  | JList l => Some l
  | JStr s => Some (map JStr (code_points s))
  | JDict d => Some (map (fun kv => JStr (fst kv)) d)
  | _ => None
  end.

(** [x + 1]: defined on int and bool ([True + 1 == 2]), TypeError on the
    rest. *)
Definition py_succ (v : json) : option Z :=
  match v with
  | JInt z => Some (z + 1)
  | JBool b => Some ((if b then 1 else 0) + 1)
  | _ => None
  end.

(** [x == s] for a string literal [s]. *)
Definition py_eq_str (v : json) (s : string) : bool :=
  match v with JStr t => String.eqb t s | _ => false end.

(** [f"{n}"] for an int. *)
Definition str_of_int (n : Z) : string := NilZero.string_of_int (Z.to_int n).

(** [s.replace(':', '_')] *)
Fixpoint replace_colon (s : string) : string :=
  match s with
  | EmptyString => EmptyString
  | String a rest =>
      String (if Ascii.eqb a ":"%char then "_"%char else a) (replace_colon rest)
  end.

(** ** The environment of a run *)

(** What [self.session.get(...)] does for one request. *)
Inductive response : Type :=
| Raises                                  (* requests raised: no connection, timeout *)
| Status (code : Z) (body : option json). (* a response; [body] is what
                                             [response.json()] returns, [None]
                                             when it raises *)

Record Host : Type := {
  (** the remote service, keyed by the parcel number asked for *)
  session_get : string -> response;
  (** [datetime.now().strftime('%Y-%m-%d %H:%M')] read while that parcel
      number is parsed *)
  check_date : string -> string;
  (** [datetime.now().isoformat()] read for the n-th checkpoint dump *)
  timestamp : nat -> string;
  (** [datetime.now().strftime('%Y-%m-%d_%H-%M')] read by the constructor
      of the run's scanner (line 42); it names the folder of the run, so a
      scanner of another run looks for the same checkpoint file only if
      it is built within the same minute *)
  started : string;
  (** [f"{(a / b) * 100:.2f}%"] for a non-zero [b] *)
  completion : Z -> Z -> string;
  (** [str(x)] *)
  py_str : json -> string;
  (** [pd.DataFrame(x)] does not raise *)
  DataFrame : json -> bool;
  (** [pd.DataFrame(x).to_excel(...)] does not raise *)
  to_excel : json -> bool
}.

Inductive file : Type :=
| JsonText (doc : json)   (* a file [json.load] reads as [doc] *)
| Sheet (rows : json)     (* the spreadsheet written from [rows] *)
| Garbage.                (* anything [json.load] rejects *)

Record World : Type := {
  files : gmap string file;
  requests : list string;   (* parcel numbers asked of the remote, oldest first *)
  dumps : list json         (* documents dumped to a checkpoint file, oldest first *)
}.

Definition write_file (path : string) (f : file) (w : World) : World :=
  {| files := <[path := f]> (files w); requests := requests w; dumps := dumps w |}.

Definition remove_file (path : string) (w : World) : World :=
  {| files := delete path (files w); requests := requests w; dumps := dumps w |}.

Definition record_request (parcel_num : string) (w : World) : World :=
  {| files := files w; requests := requests w ++ [parcel_num]; dumps := dumps w |}.

Definition record_dump (doc : json) (w : World) : World :=
  {| files := files w; requests := requests w; dumps := dumps w ++ [doc] |}.

(** The path of the log file of the module (line 19).  Every [logger]
    call appends to it; its content is not modelled. *)
Definition log_file : string := "land_parcel_scan.log".

(** ** The scanner object *)

Record Scanner : Type := {
  kvartal_number : string;
  start : Z;
  end_num : Z;               (* [self.end] *)
  land_parcels : json;
  current_num : Z;
  found_count : Z;
  not_found_streak : Z;
  max_not_found : Z;
  folder_name : string;
  temp_file : string;
  result_file : string
}.

Definition set_start (x : Z) (s : Scanner) : Scanner :=
  {| kvartal_number := kvartal_number s; start := x; end_num := end_num s;
     land_parcels := land_parcels s; current_num := current_num s;
     found_count := found_count s; not_found_streak := not_found_streak s;
     max_not_found := max_not_found s; folder_name := folder_name s;
     temp_file := temp_file s; result_file := result_file s |}.

Definition set_end (x : Z) (s : Scanner) : Scanner :=
  {| kvartal_number := kvartal_number s; start := start s; end_num := x;
     land_parcels := land_parcels s; current_num := current_num s;
     found_count := found_count s; not_found_streak := not_found_streak s;
     max_not_found := max_not_found s; folder_name := folder_name s;
     temp_file := temp_file s; result_file := result_file s |}.

Definition set_land_parcels (x : json) (s : Scanner) : Scanner :=
  {| kvartal_number := kvartal_number s; start := start s; end_num := end_num s;
     land_parcels := x; current_num := current_num s;
     found_count := found_count s; not_found_streak := not_found_streak s;
     max_not_found := max_not_found s; folder_name := folder_name s;
     temp_file := temp_file s; result_file := result_file s |}.

Definition set_current_num (x : Z) (s : Scanner) : Scanner :=
  {| kvartal_number := kvartal_number s; start := start s; end_num := end_num s;
     land_parcels := land_parcels s; current_num := x;
     found_count := found_count s; not_found_streak := not_found_streak s;
     max_not_found := max_not_found s; folder_name := folder_name s;
     temp_file := temp_file s; result_file := result_file s |}.

Definition set_found_count (x : Z) (s : Scanner) : Scanner :=
  {| kvartal_number := kvartal_number s; start := start s; end_num := end_num s;
     land_parcels := land_parcels s; current_num := current_num s;
     found_count := x; not_found_streak := not_found_streak s;
     max_not_found := max_not_found s; folder_name := folder_name s;
     temp_file := temp_file s; result_file := result_file s |}.

Definition set_not_found_streak (x : Z) (s : Scanner) : Scanner :=
  {| kvartal_number := kvartal_number s; start := start s; end_num := end_num s;
     land_parcels := land_parcels s; current_num := current_num s;
     found_count := found_count s; not_found_streak := x;
     max_not_found := max_not_found s; folder_name := folder_name s;
     temp_file := temp_file s; result_file := result_file s |}.

(** [LandParcelScanner.__init__]; the folder is named after the minute in
    which the constructor runs, read from the host of the run. *)
Definition LandParcelScanner (h : Host) (kvartal : string) (start_ end_ : Z)
  : Scanner :=
  let folder := "results_" +:+ started h in
  {| kvartal_number := kvartal; start := start_; end_num := end_;
     land_parcels := JList []; current_num := start_;
     found_count := 0; not_found_streak := 0; max_not_found := 100;
     folder_name := folder;
     temp_file := folder +:+ "/temp_" +:+ replace_colon kvartal +:+ ".json";
     result_file := folder +:+ "/parcels_" +:+ replace_colon kvartal +:+ ".xlsx" |}.

(** ** The checkpoint store *)

(** The dict [progress_data] of [save_progress]; [n] counts the dumps made
    so far.  Building it raises ZeroDivisionError when
    [end - start + 1] is zero.  (Integers too large for the float division
    are outside the model.) *)
Definition progress_data (h : Host) (s : Scanner) (n : nat) : option json :=
  if end_num s - start s + 1 =? 0 then None
  else
    Some (JDict
      [ ("metadata", JDict
           [ ("kvartal", JStr (kvartal_number s));
             ("start_num", JInt (start s));
             ("end_num", JInt (end_num s));
             ("last_checked", JInt (current_num s));
             ("timestamp", JStr (timestamp h n)) ]);
        ("stats", JDict
           [ ("total_checked", JInt (current_num s - start s));
             ("found_count", JInt (found_count s));
             ("completion",
               JStr (completion h (current_num s - start s)
                                  (end_num s - start s + 1))) ]);
        ("land_parcels", land_parcels s) ]).

(** [save_progress]: the checkpoint is dumped first, the spreadsheet is
    refreshed when there are records (the log line after it takes their
    [len]); any exception gives [False].  A failed export leaves the
    spreadsheet as it was in this model.  The write of the checkpoint
    itself does not fail here, and the log lines of lines 81 and 85 are
    left out. *)
Definition save_progress (h : Host) (s : Scanner) (w : World) : bool * World :=
  match progress_data h s (List.length (dumps w)) with
  | None => (false, w)
  | Some doc =>
      let w1 := record_dump doc (write_file (temp_file s) (JsonText doc) w) in
      if truthy (land_parcels s) then
        if to_excel h (land_parcels s) then
          let w2 := write_file (result_file s) (Sheet (land_parcels s)) w1 in
          match py_len (land_parcels s) with
          | Some _ => (true, w2)
          | None => (false, w2)
          end
        else (false, w1)
      else (true, w1)
  end.

(** [data['metadata']['last_checked']] *)
Definition stored_last_checked (data : json) : option json :=
  match py_getitem data "metadata" with
  | Some m => py_getitem m "last_checked"
  | None => None
  end.

(** [data['metadata']['last_checked'] + 1] *)
Definition resume_point (data : json) : option Z :=
  match stored_last_checked data with
  | Some v => py_succ v
  | None => None
  end.

(** [load_progress]: the three assignments happen one after the other, so
    an exception in a later one leaves the earlier ones in place.  The log
    lines of lines 99, 100 and 109 are left out. *)
Definition load_progress (h : Host) (s : Scanner) (w : World)
  : bool * Scanner * World :=
  match files w !! temp_file s with
  | None => (false, s, w)
  | Some (JsonText data) =>
      match py_get data "land_parcels" (JList []) with
      | None => (false, s, w)
      | Some lp =>
          let s1 := set_land_parcels lp s in
          match py_len lp with
          | None => (false, s1, w)
          | Some n =>
              let s2 := set_found_count n s1 in
              match resume_point data with
              | None => (false, s2, w)
              | Some c =>
                  let s3 := set_current_num c s2 in
                  if truthy lp then
                    if to_excel h lp
                    then (true, s3, write_file (result_file s) (Sheet lp) w)
                    else (false, s3, w)
                  else (true, s3, w)
              end
          end
      end
  | Some _ => (false, s, w)
  end.

(** [handle_interrupt]: the state is saved, then the process exits. *)
Definition handle_interrupt (h : Host) (s : Scanner) (w : World) : World :=
  (save_progress h s w).2.

(** ** The lookup *)

(** [fetch_parcel_data]: the payload for status 200, [None] for 404, for
    any other status and for any exception (of the request or of decoding
    the body). *)
Definition fetch_parcel_data (h : Host) (parcel_num : string) (w : World)
  : json * World :=
  let data :=
    match session_get h parcel_num with
    | Raises => JNull
    | Status code body =>
        if code =? 200 then
          match body with Some payload => payload | None => JNull end
        else if code =? 404 then JNull
        else JNull
    end in
  (data, record_request parcel_num w).

Definition land_category : string := "Земельные участки ЕГРН".

(** The dict that [parse_parcel_data] returns for a matching feature. *)
Definition parcel_record (h : Host) (feature options : json)
  (parcel_num : string) : option json :=
  cad_num ← py_get options "cad_num" (JStr parcel_num);
  address ← py_get options "readable_address" (JStr "Не указан");
  area ← py_get options "area" JNull;
  specified_area ← py_get options "specified_area" (JStr "");
  category ← py_get options "land_record_category_type" (JStr "");
  permitted_use ← py_get options "permitted_use_established_by_document" (JStr "");
  status ← py_get options "status" (JStr "");
  cost_value ← py_get options "cost_value" (JStr "");
  cost_date ← py_get options "cost_determination_date" (JStr "");
  reg_date ← py_get options "land_record_reg_date" (JStr "");
  ownership ← py_get options "ownership_type" (JStr "");
  right_type ← py_get options "right_type" (JStr "");
  geometry ← py_get feature "geometry" (JDict []);
  coordinates ← py_get geometry "coordinates" (JStr "");
  Some (JDict
    [ ("Кадастровый номер", cad_num);
      ("Адрес", address);
      ("Площадь (кв.м)", py_or area specified_area);
      ("Категория земли", category);
      ("Вид использования", permitted_use);
      ("Статус", status);
      ("Кадастровая стоимость", cost_value);
      ("Дата оценки", cost_date);
      ("Дата регистрации", reg_date);
      ("Тип собственности", ownership);
      ("Тип права", right_type);
      ("Координаты", JStr (py_str h coordinates));
      ("Источник данных", JStr "НСПД РФ");
      ("Дата проверки", JStr (check_date h parcel_num)) ]).

(** The [for feature in features] loop: the record of the first feature
    of the land-parcel category, [Some JNull] when the loop ends without
    one, [None] when an exception is raised on the way. *)
Fixpoint first_land_parcel (h : Host) (features : list json)
  (parcel_num : string) : option json :=
  match features with
  | [] => Some JNull
  | feature :: rest =>
      props ← py_get feature "properties" (JDict []);
      category ← py_get props "categoryName" JNull;
      if py_eq_str category land_category then
        options ← py_get props "options" (JDict []);
        parcel_record h feature options parcel_num
      else first_land_parcel h rest parcel_num
  end.

(** [parse_parcel_data] *)
Definition parse_parcel_data (h : Host) (data : json) (parcel_num : string)
  : json :=
  let body :=
    d ← py_get data "data" (JDict []);
    features ← py_get d "features" (JList []);
    l ← py_iter features;
    first_land_parcel h l parcel_num in
  match body with
  | Some parcel_info => parcel_info
  | None => JNull
  end.

(** ** The scan loop *)

(** [f"{kvartal}:{n}"] *)
Definition parcel_at (kvartal : string) (n : Z) : string :=
  kvartal +:+ ":" +:+ str_of_int n.

(** [parcel_num] of line 184 *)
Definition parcel_number (s : Scanner) : string :=
  parcel_at (kvartal_number s) (current_num s).

(** Lines 184-196 of one iteration: the lookup and the bookkeeping of its
    outcome.  [None] is the AttributeError of [append] on a
    [land_parcels] that is not a list. *)
Definition probe (h : Host) (s : Scanner) (w : World) : option Scanner * World :=
  let parcel_num := parcel_number s in
  let '(data, w1) := fetch_parcel_data h parcel_num w in
  if is_None data then
    (Some (set_not_found_streak (not_found_streak s + 1) s), w1)
  else
    let parcel_info := parse_parcel_data h data parcel_num in
    if truthy parcel_info then
      match land_parcels s with
      | JList l =>
          (Some (set_not_found_streak 0
                   (set_found_count (found_count s + 1)
                      (set_land_parcels (JList (l ++ [parcel_info])) s))), w1)
      | _ => (None, w1)
      end
    else (Some s, w1).

(** The condition of line 199. *)
Definition checkpoint_due (s : Scanner) : bool :=
  (0 <? found_count s)
  && ((found_count s mod 10 =? 0) || (current_num s mod 50 =? 0)).

Inductive outcome : Type :=
| Next (s : Scanner) (w : World)     (* the loop goes on with the next number *)
| Stop (s : Scanner) (w : World)     (* [break] *)
| Fatal (s : Scanner) (w : World).   (* an exception leaves the loop *)

(** One pass through the body of the [while] loop. *)
Definition iteration (h : Host) (s : Scanner) (w : World) : outcome :=
  match probe h s w with
  | (None, w1) => Fatal s w1
  | (Some s1, w1) =>
      let w2 := if checkpoint_due s1 then snd (save_progress h s1 w1) else w1 in
      if max_not_found s1 <=? not_found_streak s1 then Stop s1 w2
      else Next (set_current_num (current_num s1 + 1) s1) w2
  end.

(** The world a pass leaves. *)
Definition world_of (o : outcome) : World :=
  match o with Next _ w | Stop _ w | Fatal _ w => w end.

Inductive exit : Type :=
| Exhausted     (* [current_num] passed [end] *)
| EarlyStop     (* [break] after [max_not_found] misses in a row *)
| Crashed       (* an exception reached the [except] of [scan] *)
| OutOfFuel.    (* the model ran out of fuel; excluded by [scan_loop_fuel] *)

(** [while self.current_num <= self.end: ...] *)
Fixpoint scan_loop (fuel : nat) (h : Host) (s : Scanner) (w : World)
  : exit * Scanner * World :=
  if current_num s <=? end_num s then
    match fuel with
    | O => (OutOfFuel, s, w)
    | S fuel' =>
        match iteration h s w with
        | Next s' w' => scan_loop fuel' h s' w'
        | Stop s' w' => (EarlyStop, s', w')
        | Fatal s' w' => (Crashed, s', w')
        end
    end
  else (Exhausted, s, w).

(** [n] passes of the loop from [s], none of which leaves it: the state
    and the world at the head of the next pass. *)
Fixpoint passes (n : nat) (h : Host) (s : Scanner) (w : World)
  : option (Scanner * World) :=
  match n with
  | O => Some (s, w)
  | S n' =>
      if current_num s <=? end_num s then
        match iteration h s w with
        | Next s' w' => passes n' h s' w'
        | Stop _ _ | Fatal _ _ => None
        end
      else None
  end.

(** The number of passes the loop can make from [s]. *)
Definition remaining (s : Scanner) : nat :=
  Z.to_nat (end_num s + 1 - current_num s).

Inductive returned : Type :=
| Frame (rows : json)    (* [pd.DataFrame(self.land_parcels)] *)
| ReturnsNone.

Record run : Type := {
  how : exit;        (* how the loop ended *)
  fatal : bool;      (* the [except] branch of [scan] ran *)
  ret : returned;    (* the value [scan] returns *)
  final : Scanner;
  after : World
}.

(** Lines 211-230 of [scan]: what follows the loop.  The final
    [save_progress], then the return value inside the [try]; an exception
    there, like one in the loop, goes to the [except] branch, which saves
    once more and returns [None].  The summary lines in between, like
    the three lines [scan] begins with, are log output and left out;
    their division by the elapsed wall-clock time is not modelled. *)
Definition finish (h : Host) (e : exit) (s1 : Scanner) (w1 : World) : run :=
  match e with
  | OutOfFuel =>
      {| how := e; fatal := false; ret := ReturnsNone; final := s1; after := w1 |}
  | Crashed =>
      {| how := e; fatal := true; ret := ReturnsNone; final := s1;
         after := snd (save_progress h s1 w1) |}
  | Exhausted | EarlyStop =>
      let w2 := snd (save_progress h s1 w1) in
      if truthy (land_parcels s1) then
        if DataFrame h (land_parcels s1) then
          {| how := e; fatal := false; ret := Frame (land_parcels s1);
             final := s1; after := w2 |}
        else
          {| how := e; fatal := true; ret := ReturnsNone; final := s1;
             after := snd (save_progress h s1 w2) |}
      else
        {| how := e; fatal := false; ret := ReturnsNone; final := s1; after := w2 |}
  end.

(** [scan] *)
Definition scan (h : Host) (s : Scanner) (w : World) : run :=
  let '(e, s1, w1) := scan_loop (remaining s) h s w in finish h e s1 w1.

(** ** The operator's session *)

(** What the operator types at a prompt for a bound, stripped. *)
Inductive answer : Type :=
| Blank              (* nothing: the default is taken *)
| Typed (num : Z)    (* text that [int()] reads as [num] *)
| NotANumber.        (* text on which [int()] raises ValueError *)

(** [validate_input]; the value is [None] when [int(value)] raises. *)
Definition validate_input (value : option Z) (min_val max_val : Z) : bool :=
  match value with
  | Some num => (min_val <=? num) && (num <=? max_val)
  | None => false
  end.

(** One of the two [while True] prompts for a bound: answers are read
    until one passes [validate_input]; [None] is the EOFError of [input]
    on an exhausted stdin. *)
Fixpoint ask_bound (default min_val max_val : Z) (stdin : list answer)
  : option (Z * list answer) :=
  match stdin with
  | [] => None
  | a :: rest =>
      let value :=
        match a with
        | Blank => Some default
        | Typed num => Some num
        | NotANumber => None
        end in
      match value with
      | Some num =>
          if validate_input value min_val max_val then Some (num, rest)
          else ask_bound default min_val max_val rest
      | None => ask_bound default min_val max_val rest
      end
  end.

(** [result is None] *)
Definition is_returned_None (r : returned) : bool :=
  match r with ReturnsNone => true | Frame _ => false end.

Inductive report : Type :=
| NothingFound    (* "Участки не найдены. ..." *)
| FoundParcels.   (* "Найдено ... участков. ..." *)

(** [main] from line 254 on, for the block number [kvartal] that the first
    prompt accepted; [resume] is whether the operator answers [y] when an
    earlier checkpoint is found. *)
Definition main (h : Host) (kvartal : string) (resume : bool)
  (stdin : list answer) (w : World) : option (report * run) :=
  let scanner := LandParcelScanner h kvartal 1 9999 in
  let '(scanner, w) :=
    match files w !! temp_file scanner with
    | Some _ =>
        if resume then
          let '(_, loaded, w') := load_progress h scanner w in (loaded, w')
        else
          (scanner, remove_file (result_file scanner)
                      (remove_file (temp_file scanner) w))
    | None => (scanner, w)
    end in
  '(start_, stdin) ← ask_bound (start scanner) 1 99999 stdin;
  let scanner := set_start start_ scanner in
  '(end_, _) ← ask_bound (end_num scanner) (start scanner) 99999 stdin;
  let scanner := set_end end_ scanner in
  let scanner := set_current_num (start scanner) scanner in
  let result := scan h scanner w in
  Some (if is_returned_None (ret result) then NothingFound else FoundParcels,
        result).

(** ** A concrete remote: block 77:01:0001001 *)

Definition block : string := "77:01:0001001".

(** The payload the service sends for a registered land parcel. *)
Definition parcel_payload (cad_num : string) : json :=
  JDict [("data", JDict [("features", JList
    [ JDict [ ("properties", JDict
                 [ ("categoryName", JStr land_category);
                   ("options", JDict
                      [ ("cad_num", JStr cad_num);
                        ("readable_address", JStr "г. Москва");
                        ("area", JInt 600) ]) ]);
              ("geometry", JDict [("coordinates", JList [JInt 37; JInt 55])]) ] ])])].

(** A payload without any feature: an empty answer. *)
Definition empty_payload : json :=
  JDict [("data", JDict [("features", JList [])])].

(** A payload whose only feature is of another category. *)
Definition building_payload : json :=
  JDict [("data", JDict [("features", JList
    [ JDict [ ("properties", JDict
                 [ ("categoryName", JStr "Здания");
                   ("options", JDict [("cad_num", JStr "77:01:0001001:1055")]) ]) ] ])])].

(** A host whose remote knows exactly the parcels [known] of [block] and
    answers 404 for the rest. *)
Definition host_with (known : list Z) : Host :=
  {| session_get := fun parcel_num =>
       if existsb (fun n => String.eqb parcel_num (parcel_at block n)) known
       then Status 200 (Some (parcel_payload parcel_num))
       else Status 404 None;
     check_date := fun _ => "2025-01-01 12:00";
     timestamp := fun _ => "2025-01-01T12:00:00";
     started := "2025-01-01_12-00";
     completion := fun _ _ => "0.00%";
     py_str := fun _ => "[37, 55]";
     DataFrame := fun _ => true;
     to_excel := fun _ => true |}.

Definition empty_world : World :=
  {| files := ∅; requests := []; dumps := [] |}.

(** [h] with the answer to one request replaced. *)
Definition answering (h : Host) (parcel_num : string) (r : response) : Host :=
  {| session_get := fun p =>
       if String.eqb p parcel_num then r else session_get h p;
     check_date := check_date h; timestamp := timestamp h; started := started h;
     completion := completion h; py_str := py_str h;
     DataFrame := DataFrame h; to_excel := to_excel h |}.

(** A host whose remote answers every request with the same response. *)
Definition host_always (r : response) : Host :=
  {| session_get := fun _ => r;
     check_date := fun _ => "2025-01-01 12:00";
     timestamp := fun _ => "2025-01-01T12:00:00";
     started := "2025-01-01_12-00";
     completion := fun _ _ => "0.00%";
     py_str := fun _ => "";
     DataFrame := fun _ => true;
     to_excel := fun _ => true |}.

(** A host whose block holds no parcel: the remote answers the numbers
    [empties] of [block] with 200 and an empty feature list, and every
    other request with 404. *)
Definition host_with_empty_answers (empties : list Z) : Host :=
  {| session_get := fun parcel_num =>
       if existsb (fun n => String.eqb parcel_num (parcel_at block n)) empties
       then Status 200 (Some empty_payload)
       else Status 404 None;
     check_date := fun _ => "2025-01-01 12:00";
     timestamp := fun _ => "2025-01-01T12:00:00";
     started := "2025-01-01_12-00";
     completion := fun _ _ => "0.00%";
     py_str := fun _ => "";
     DataFrame := fun _ => true;
     to_excel := fun _ => true |}.


(** The host of a run started a minute later. *)
Definition host_next_minute (known : list Z) : Host :=
  {| session_get := session_get (host_with known);
     check_date := fun _ => "2025-01-01 12:01";
     timestamp := fun _ => "2025-01-01T12:01:00";
     started := "2025-01-01_12-01";
     completion := completion (host_with known);
     py_str := py_str (host_with known);
     DataFrame := DataFrame (host_with known);
     to_excel := to_excel (host_with known) |}.

(** The lookup call itself fails: the request raises, the status is
    neither 200 nor 404, or the body of a 200 does not decode. *)
Definition lookup_fails (r : response) : Prop :=
  match r with
  | Raises => True
  | Status code body => (code <> 200 /\ code <> 404) \/ (code = 200 /\ body = None)
  end.

(** The lookup for [parcel_num] comes back as [None]. *)
Definition lookup_misses (h : Host) (parcel_num : string) : Prop :=
  fst (fetch_parcel_data h parcel_num empty_world) = JNull.

(** ** Predicates of the statements *)

(** The fields no pass of the loop assigns. *)
Definition same_config (s s' : Scanner) : Prop :=
  kvartal_number s' = kvartal_number s /\ start s' = start s
  /\ end_num s' = end_num s /\ max_not_found s' = max_not_found s
  /\ folder_name s' = folder_name s /\ temp_file s' = temp_file s
  /\ result_file s' = result_file s.





(** The trigger as section 8 of the specification words it, to be
    compared with [checkpoint_due]. *)
Definition claimed_trigger (s : Scanner) : bool :=
  ((found_count s mod 10 =? 0) && (0 <? found_count s))
  || (current_num s mod 50 =? 0).

(** ** Concrete runs *)

(** The example run: block 77:01:0001001, range 1-5, a remote that knows
    parcel 3 only. *)
Definition example_run : run :=
  scan (host_with [3]) (LandParcelScanner (host_with [3]) block 1 5) empty_world.

(** The world an interrupt leaves behind when it arrives in the pause
    after number 3 of the example block has been processed. *)
Definition interrupted_world : World :=
  match passes 2 (host_with [3]) (LandParcelScanner (host_with [3]) block 1 5)
          empty_world with
  | Some (sa, wa) =>
      match probe (host_with [3]) sa wa with
      | (Some sk, wk) => handle_interrupt (host_with [3]) sk wk
      | (None, wk) => wk
      end
  | None => empty_world
  end.

(** A checkpoint whose [stats.found_count] says 99 next to a single
    record. *)
Definition doctored_checkpoint : json :=
  JDict [ ("metadata", JDict [("last_checked", JInt 3)]);
          ("stats", JDict [("found_count", JInt 99)]);
          ("land_parcels", JList [JDict [("Кадастровый номер", JStr "77:01:0001001:3")]]) ].

(** A checkpoint whose [land_parcels] is [null]: [load_progress] assigns
    it, fails on its [len], and leaves it in the scanner. *)
Definition broken_checkpoint : json :=
  JDict [ ("metadata", JDict [("last_checked", JInt 2)]);
          ("land_parcels", JNull) ].

(** ** Descriptions used by the further properties *)

(** The field names of a record, in the order of the dict literal of
    [parse_parcel_data]. *)
Definition record_keys : list string :=
  [ "Кадастровый номер"; "Адрес"; "Площадь (кв.м)"; "Категория земли";
    "Вид использования"; "Статус"; "Кадастровая стоимость"; "Дата оценки";
    "Дата регистрации"; "Тип собственности"; "Тип права"; "Координаты";
    "Источник данных"; "Дата проверки" ].

(** Lines 148-149: the [categoryName] a feature is tested on; [None] when
    the feature or its [properties] is not a dict. *)
Definition feature_category (feature : json) : option json :=
  props ← py_get feature "properties" (JDict []);
  py_get props "categoryName" JNull.

(** A feature of the land-parcel category. *)
Definition is_land_parcel (feature : json) : Prop :=
  exists category, feature_category feature = Some category
                   /\ py_eq_str category land_category = true.

(** A feature the loop of [parse_parcel_data] steps over. *)
Definition is_other_object (feature : json) : Prop :=
  exists category, feature_category feature = Some category
                   /\ py_eq_str category land_category = false.

(** A payload with the given features. *)
Definition payload_of (features : list json) : json :=
  JDict [("data", JDict [("features", JList features)])].

(** What the pass for number [n] of block [kvartal] adds to the records
    (lines 186-193): the record parsed from the answer, if the lookup
    returns something and a land parcel is found in it. *)
Definition find_at (h : Host) (kvartal : string) (n : Z) : option json :=
  let parcel_num := parcel_at kvartal n in
  let data := (fetch_parcel_data h parcel_num empty_world).1 in
  if is_None data then None
  else
    let parcel_info := parse_parcel_data h data parcel_num in
    if truthy parcel_info then Some parcel_info else None.

(** An ASCII digit. *)
Definition is_digit (a : ascii) : bool :=
  let n := Z.of_nat (nat_of_ascii a) in (48 <=? n) && (n <=? 57).

(** A string of ASCII digits and colons, as the block numbers [main]
    accepts are. *)
Fixpoint digits_and_colons (s : string) : bool :=
  match s with
  | EmptyString => true
  | String a rest => (is_digit a || Ascii.eqb a ":"%char) && digits_and_colons rest
  end.

(** The value [validate_input] is given for an answer. *)
Definition answer_value (default : Z) (a : answer) : option Z :=
  match a with
  | Blank => Some default
  | Typed num => Some num
  | NotANumber => None
  end.

(** The answer ends the prompt. *)
Definition accepted (default min_val max_val : Z) (a : answer) : bool :=
  validate_input (answer_value default a) min_val max_val.

(** The feature of a registered land parcel, and the feature of a
    building. *)
Definition parcel_feature (cad_num : string) : json :=
  JDict [ ("properties", JDict
             [ ("categoryName", JStr land_category);
               ("options", JDict
                  [ ("cad_num", JStr cad_num);
                    ("readable_address", JStr "г. Москва");
                    ("area", JInt 0);
                    ("specified_area", JInt 612) ]) ]);
          ("geometry", JDict [("coordinates", JList [JInt 37; JInt 55])]) ].

Definition building_feature : json :=
  JDict [ ("properties", JDict
             [ ("categoryName", JStr "Здания");
               ("options", JDict [("cad_num", JStr "77:01:0001001:1055")]) ]) ].

(** Lines 254-266 of [main]: the scanner and the world the prompts for the
    range start from. *)
Definition opening (h : Host) (kvartal : string) (resume : bool) (w : World)
  : Scanner * World :=
  let scanner := LandParcelScanner h kvartal 1 9999 in
  match files w !! temp_file scanner with
  | Some _ =>
      if resume then
        let '(_, loaded, w') := load_progress h scanner w in (loaded, w')
      else
        (scanner, remove_file (result_file scanner)
                    (remove_file (temp_file scanner) w))
  | None => (scanner, w)
  end.

(** A host like [host_with] on which every spreadsheet export fails. *)
Definition host_without_excel (known : list Z) : Host :=
  {| session_get := session_get (host_with known);
     check_date := check_date (host_with known);
     timestamp := timestamp (host_with known);
     started := started (host_with known);
     completion := completion (host_with known);
     py_str := py_str (host_with known);
     DataFrame := DataFrame (host_with known);
     to_excel := fun _ => false |}.

Section Scanner.

Context (h : Host).

(** ** Basic facts about one pass and about the loop *)

Lemma same_config_refl s : same_config s s.
Proof. repeat split. Qed.

Lemma same_config_trans s1 s2 s3 :
  same_config s1 s2 -> same_config s2 s3 -> same_config s1 s3.
Proof. unfold same_config. intuition congruence. Qed.

Lemma probe_world s w :
  snd (probe h s w) = record_request (parcel_number s) w.
Proof.
  unfold probe, fetch_parcel_data. cbn.
  repeat case_match; reflexivity.
Qed.

Lemma probe_Some s w s1 w1 :
  probe h s w = (Some s1, w1) ->
  same_config s s1 /\ current_num s1 = current_num s
  /\ w1 = record_request (parcel_number s) w.
Proof.
  intros H. pose proof (probe_world s w) as Hw. rewrite H in Hw. cbn in Hw.
  split; [|split; [|exact Hw]];
    unfold probe, fetch_parcel_data in H; cbn in H;
    repeat case_match; simplify_eq; repeat split.
Qed.

Lemma iteration_Next s w s' w' :
  iteration h s w = Next s' w' ->
  same_config s s' /\ current_num s' = current_num s + 1.
Proof.
  unfold iteration. destruct (probe h s w) as [[s1|] w1] eqn:Hp; [|discriminate].
  apply probe_Some in Hp as (Hc & Hn & _).
  case_match; intros; simplify_eq. cbn. split; [|lia].
  destruct Hc as (?&?&?&?&?&?&?). repeat split; assumption.
Qed.

Lemma remaining_Next s w s' w' :
  iteration h s w = Next s' w' -> current_num s <= end_num s ->
  remaining s = S (remaining s').
Proof.
  intros H Hle. apply iteration_Next in H as ((_&_&He&_) & Hn).
  unfold remaining. rewrite He, Hn. lia.
Qed.

(** Fuel beyond the number of identifiers left is never used. *)
Lemma scan_loop_enough n m : forall s w,
  (remaining s <= n)%nat -> (remaining s <= m)%nat ->
  scan_loop n h s w = scan_loop m h s w.
Proof.
  revert m. induction n as [|n IH]; intros m s w Hn Hm.
  - destruct m; cbn; destruct (current_num s <=? end_num s) eqn:E; try reflexivity.
    apply Z.leb_le in E. unfold remaining in Hn. lia.
  - destruct m as [|m]; cbn; destruct (current_num s <=? end_num s) eqn:E;
      try reflexivity.
    + apply Z.leb_le in E. unfold remaining in Hm. lia.
    + apply Z.leb_le in E.
      destruct (iteration h s w) as [s' w'|s' w'|s' w'] eqn:Hi; try reflexivity.
      pose proof (remaining_Next _ _ _ _ Hi E). apply IH; lia.
Qed.

(** The loop terminates: with the fuel [scan] gives it, it never runs out. *)
Lemma scan_loop_fuel n : forall s w,
  (remaining s <= n)%nat -> fst (fst (scan_loop n h s w)) <> OutOfFuel.
Proof.
  induction n as [|n IH]; intros s w Hn; cbn;
    destruct (current_num s <=? end_num s) eqn:E; try discriminate.
  - apply Z.leb_le in E. unfold remaining in Hn. lia.
  - apply Z.leb_le in E.
    destruct (iteration h s w) as [s' w'|s' w'|s' w'] eqn:Hi; try discriminate.
    pose proof (remaining_Next _ _ _ _ Hi E). apply IH; lia.
Qed.

(** [scan] always returns. *)
Lemma scan_terminates s w : how (scan h s w) <> OutOfFuel.
Proof.
  unfold scan. pose proof (scan_loop_fuel (remaining s) s w (le_n _)) as H.
  destruct (scan_loop (remaining s) h s w) as [[e s1] w1]. cbn in H.
  destruct e; cbn; try congruence; repeat case_match; cbn; congruence.
Qed.

(** ** The outcome of one lookup *)

Lemma fetch_parcel_data_eq parcel_num w :
  fetch_parcel_data h parcel_num w
  = (fst (fetch_parcel_data h parcel_num empty_world),
     record_request parcel_num w).
Proof. reflexivity. Qed.

(** A lookup that comes back as [None] counts one more miss. *)
Lemma probe_miss s w :
  lookup_misses h (parcel_number s) ->
  probe h s w
  = (Some (set_not_found_streak (not_found_streak s + 1) s),
     record_request (parcel_number s) w).
Proof.
  unfold lookup_misses, probe. intros H.
  rewrite fetch_parcel_data_eq, H. reflexivity.
Qed.

(** A payload in which [parse_parcel_data] finds no land parcel changes
    nothing in the scanner. *)
Lemma probe_no_parcel s w :
  is_None (fst (fetch_parcel_data h (parcel_number s) empty_world)) = false ->
  truthy (parse_parcel_data h (fst (fetch_parcel_data h (parcel_number s) empty_world))
            (parcel_number s)) = false ->
  probe h s w = (Some s, record_request (parcel_number s) w).
Proof.
  unfold probe. intros Hd Hp.
  rewrite fetch_parcel_data_eq, Hd, Hp. reflexivity.
Qed.

Lemma lookup_fails_misses parcel_num r :
  lookup_fails r -> lookup_misses (answering h parcel_num r) parcel_num.
Proof.
  unfold lookup_misses, fetch_parcel_data. cbn. rewrite String.eqb_refl.
  destruct r as [|code body]; cbn; [reflexivity|].
  intros [[H200 H404]|[-> ->]]; [|reflexivity].
  apply Z.eqb_neq in H200. rewrite H200. destruct (code =? 404); reflexivity.
Qed.

Lemma not_found_misses parcel_num body :
  lookup_misses (answering h parcel_num (Status 404 body)) parcel_num.
Proof.
  unfold lookup_misses, fetch_parcel_data. cbn. rewrite String.eqb_refl.
  reflexivity.
Qed.

(** ** When a checkpoint is written *)

Lemma progress_data_Some s n :
  end_num s - start s + 1 <> 0 ->
  exists doc, progress_data h s n = Some doc
    /\ stored_last_checked doc = Some (JInt (current_num s))
    /\ resume_point doc = Some (current_num s + 1)
    /\ py_get doc "land_parcels" (JList []) = Some (land_parcels s)
    /\ (py_getitem doc "stats" ≫= fun st => py_getitem st "found_count")
       = Some (JInt (found_count s)).
Proof.
  intros H. apply Z.eqb_neq in H. unfold progress_data. rewrite H.
  eexists. split; [reflexivity|]. repeat split.
Qed.

Lemma save_progress_dumps s w :
  dumps (snd (save_progress h s w))
  = match progress_data h s (List.length (dumps w)) with
    | Some doc => dumps w ++ [doc]
    | None => dumps w
    end.
Proof.
  unfold save_progress. destruct (progress_data h s _); [|reflexivity].
  repeat case_match; reflexivity.
Qed.

Lemma save_progress_requests s w :
  requests (snd (save_progress h s w)) = requests w.
Proof.
  unfold save_progress. repeat case_match; reflexivity.
Qed.

(** After a successful dump the checkpoint file holds the document. *)
Lemma save_progress_file s w doc :
  temp_file s <> result_file s ->
  progress_data h s (List.length (dumps w)) = Some doc ->
  files (snd (save_progress h s w)) !! temp_file s = Some (JsonText doc).
Proof.
  intros Hne Hd. unfold save_progress. rewrite Hd.
  repeat case_match; cbn;
    rewrite ?(lookup_insert_ne _ (result_file s)) by congruence;
    apply lookup_insert_eq.
Qed.

(** The world a pass leaves, in terms of its probe. *)
Lemma iteration_world s w s1 w1 :
  probe h s w = (Some s1, w1) ->
  world_of (iteration h s w)
  = if checkpoint_due s1 then snd (save_progress h s1 w1) else w1.
Proof.
  intros Hp. unfold iteration. rewrite Hp.
  destruct (max_not_found s1 <=? not_found_streak s1); reflexivity.
Qed.

Lemma checkpoint_due_spec s :
  checkpoint_due s = true
  <-> 0 < found_count s
      /\ (found_count s mod 10 = 0 \/ current_num s mod 50 = 0).
Proof.
  unfold checkpoint_due.
  rewrite andb_true_iff, orb_true_iff, Z.ltb_lt, !Z.eqb_eq. reflexivity.
Qed.

(** C5.  After a pass in which [found_count > 0] and ([found_count] is a
    multiple of 10 or [current_num] is a multiple of 50), the state is
    persisted: the checkpoint file holds the document built from the
    state after the lookup, with its records, its [found_count] and the
    number just probed as [last_checked].  (The range is a ScanRange,
    [start <= end], and the two files of the scanner are different
    paths.) *)
Theorem checkpoint_when_due s w s1 w1 :
  start s <= end_num s ->
  temp_file s <> result_file s ->
  probe h s w = (Some s1, w1) ->
  0 < found_count s1 ->
  found_count s1 mod 10 = 0 \/ current_num s1 mod 50 = 0 ->
  exists doc,
    progress_data h s1 (List.length (dumps w1)) = Some doc
    /\ files (world_of (iteration h s w)) !! temp_file s = Some (JsonText doc)
    /\ dumps (world_of (iteration h s w)) = dumps w1 ++ [doc]
    /\ stored_last_checked doc = Some (JInt (current_num s))
    /\ py_get doc "land_parcels" (JList []) = Some (land_parcels s1)
    /\ (py_getitem doc "stats" ≫= fun st => py_getitem st "found_count")
       = Some (JInt (found_count s1)).
Proof.
  intros Hrange Hne Hp Hpos Hmul.
  destruct (probe_Some _ _ _ _ Hp) as ((_&Hs&He&_&_&Ht&Hr) & Hc & _).
  destruct (progress_data_Some s1 (List.length (dumps w1)))
    as (doc & Hd & Hres & _ & Hlp & Hfc); [lia|].
  exists doc. rewrite (iteration_world _ _ _ _ Hp).
  rewrite (proj2 (checkpoint_due_spec s1)) by auto.
  split; [exact Hd|]. split.
  { rewrite <- Ht. apply save_progress_file; [congruence|exact Hd]. }
  split; [rewrite save_progress_dumps, Hd; reflexivity|].
  rewrite <- Hc. auto.
Qed.

Lemma iteration_dumps_le s w :
  (List.length (dumps w) <= List.length (dumps (world_of (iteration h s w))))%nat.
Proof.
  destruct (probe h s w) as [[s1|] w1] eqn:Hp.
  - rewrite (iteration_world _ _ _ _ Hp).
    apply probe_Some in Hp as (_ & _ & ->).
    destruct (checkpoint_due s1); [|reflexivity].
    rewrite save_progress_dumps. case_match; cbn; [|reflexivity].
    rewrite length_app. cbn. lia.
  - unfold iteration. rewrite Hp. cbn.
    pose proof (probe_world s w) as Hw. rewrite Hp in Hw. cbn in Hw.
    rewrite Hw. reflexivity.
Qed.

Lemma iteration_same_config s w s' w' :
  iteration h s w = Next s' w' \/ iteration h s w = Stop s' w'
  \/ iteration h s w = Fatal s' w' ->
  same_config s s'.
Proof.
  intros [H|[H|H]].
  - apply iteration_Next in H. tauto.
  - unfold iteration in H.
    destruct (probe h s w) as [[s1|] w1] eqn:Hp; [|discriminate].
    apply probe_Some in Hp as (Hc & _). case_match; simplify_eq. exact Hc.
  - unfold iteration in H.
    destruct (probe h s w) as [[s1|] w1] eqn:Hp.
    + case_match; discriminate.
    + simplify_eq. apply same_config_refl.
Qed.

Lemma scan_loop_config n : forall s w e s1 w1,
  scan_loop n h s w = (e, s1, w1) -> same_config s s1.
Proof.
  induction n as [|n IH]; intros s w e s1 w1; cbn;
    destruct (current_num s <=? end_num s);
    try (intros; simplify_eq; apply same_config_refl).
  destruct (iteration h s w) as [s' w'|s' w'|s' w'] eqn:Hi; intros H.
  - eapply same_config_trans; [|eapply IH, H].
    eapply iteration_same_config; eauto.
  - simplify_eq. eapply iteration_same_config; eauto.
  - simplify_eq. eapply iteration_same_config; eauto.
Qed.

Lemma scan_loop_dumps_le n : forall s w,
  (List.length (dumps w) <= List.length (dumps (snd (scan_loop n h s w))))%nat.
Proof.
  induction n as [|n IH]; intros s w; cbn;
    destruct (current_num s <=? end_num s); try reflexivity.
  pose proof (iteration_dumps_le s w) as Hle.
  destruct (iteration h s w) as [s' w'|s' w'|s' w'] eqn:Hi; cbn in *; try exact Hle.
  etransitivity; [exact Hle | apply IH].
Qed.

(** The final write of [scan]: whatever the loop did, the newest dump is
    the document of the final state. *)
Lemma finish_dumps e s1 w1 :
  e <> OutOfFuel -> end_num s1 - start s1 + 1 <> 0 ->
  exists older doc,
    dumps (after (finish h e s1 w1)) = older ++ [doc]
    /\ progress_data h (final (finish h e s1 w1)) (List.length older) = Some doc
    /\ (List.length (dumps w1) <= List.length older)%nat.
Proof.
  intros He Hr.
  assert (Hsave : forall w, exists doc,
             progress_data h s1 (List.length (dumps w)) = Some doc
             /\ dumps (snd (save_progress h s1 w)) = dumps w ++ [doc]).
  { intros w. destruct (progress_data_Some s1 (List.length (dumps w)) Hr)
      as (doc & Hd & _). exists doc. split; [exact Hd|].
    rewrite save_progress_dumps, Hd. reflexivity. }
  destruct (Hsave w1) as (doc1 & Hd1 & Hw1).
  destruct (Hsave (snd (save_progress h s1 w1))) as (doc2 & Hd2 & Hw2).
  destruct e; try congruence; cbn;
    try (exists (dumps w1), doc1; cbn; repeat split; auto; fail).
  all: destruct (truthy (land_parcels s1));
    [destruct (DataFrame h (land_parcels s1))|]; cbn;
    try (exists (dumps w1), doc1; cbn; repeat split; auto; fail).
  all: exists (dumps (snd (save_progress h s1 w1))), doc2; cbn;
    repeat split; auto; rewrite Hw1, length_app; cbn; lia.
Qed.

(** C4, amended.  In a pass whose lookup does not raise, a checkpoint is
    written at the end of the pass if and only if [found_count > 0] and
    ([found_count % 10 = 0] or [current_num % 50 = 0]), both read after the
    lookup; otherwise the dumps are what they were.  And every [scan]
    ends with a checkpoint write of its final state, whatever these
    conditions say.  (The range is a ScanRange, [start <= end].) *)
Theorem checkpoint_trigger_exact s w :
  start s <= end_num s ->
  (forall s1 w1, probe h s w = (Some s1, w1) ->
     ((exists doc, dumps (world_of (iteration h s w)) = dumps w ++ [doc])
      <-> 0 < found_count s1
          /\ (found_count s1 mod 10 = 0 \/ current_num s1 mod 50 = 0))
     /\ (checkpoint_due s1 = false ->
         dumps (world_of (iteration h s w)) = dumps w))
  /\ exists older doc,
       dumps (after (scan h s w)) = older ++ [doc]
       /\ progress_data h (final (scan h s w)) (List.length older) = Some doc
       /\ (List.length (dumps w) <= List.length older)%nat.
Proof.
  intros Hrange. split.
  - intros s1 w1 Hp. rewrite (iteration_world _ _ _ _ Hp).
    destruct (probe_Some _ _ _ _ Hp) as ((_&Hs&He&_) & _ & ->).
    rewrite <- checkpoint_due_spec.
    destruct (checkpoint_due s1) eqn:Hdue.
    + split; [|discriminate]. split; [reflexivity|]. intros _.
      destruct (progress_data_Some s1
                  (List.length (dumps (record_request (parcel_number s) w))))
        as (doc & Hd & _); [lia|].
      exists doc. rewrite save_progress_dumps, Hd. reflexivity.
    + split; [|reflexivity]. split; [|discriminate].
      intros [doc Hdoc]. cbn in Hdoc.
      apply (f_equal (@List.length json)) in Hdoc.
      rewrite length_app in Hdoc. cbn in Hdoc. lia.
  - unfold scan.
    pose proof (scan_loop_fuel (remaining s) s w (le_n _)) as Hfuel.
    pose proof (scan_loop_dumps_le (remaining s) s w) as Hle.
    destruct (scan_loop (remaining s) h s w) as [[e s1] w1] eqn:Hloop.
    cbn in Hfuel, Hle.
    apply scan_loop_config in Hloop as (_&Hs&He&_).
    destruct (finish_dumps e s1 w1 Hfuel) as (older & doc & H1 & H2 & H3);
      [lia|].
    exists older, doc. repeat split; auto. lia.
Qed.

(** ** Early stop *)

Lemma passes_same_config n : forall s w s' w',
  passes n h s w = Some (s', w') -> same_config s s'.
Proof.
  induction n as [|n IH]; intros s w s' w'; cbn.
  - intros; simplify_eq. apply same_config_refl.
  - destruct (current_num s <=? end_num s); [|discriminate].
    destruct (iteration h s w) as [s1 w1| |] eqn:Hi; try discriminate.
    intros H. eapply same_config_trans; [|eapply IH, H].
    eapply iteration_same_config; eauto.
Qed.

(** A scan that gets to the head of a pass ends as the loop ends from
    there. *)
Lemma passes_scan_loop n : forall s w s' w',
  passes n h s w = Some (s', w') ->
  scan_loop (remaining s) h s w = scan_loop (remaining s') h s' w'.
Proof.
  induction n as [|n IH]; intros s w s' w'; cbn.
  - intros; simplify_eq. reflexivity.
  - destruct (current_num s <=? end_num s) eqn:E; [|discriminate].
    apply Z.leb_le in E.
    destruct (iteration h s w) as [s1 w1| |] eqn:Hi; try discriminate.
    intros H. rewrite (remaining_Next _ _ _ _ Hi E). cbn.
    apply Z.leb_le in E. rewrite E, Hi. eapply IH, H.
Qed.

Lemma finish_requests e s w :
  requests (after (finish h e s w)) = requests w.
Proof.
  destruct e; cbn; repeat case_match; cbn;
    rewrite ?save_progress_requests; reflexivity.
Qed.

Lemma finish_how_final e s w :
  how (finish h e s w) = e /\ final (finish h e s w) = s.
Proof. destruct e; cbn; repeat case_match; cbn; auto. Qed.

(** [n + 1] lookups in a row that come back as [None], the last of which
    fills the limit: the loop breaks at the last of them. *)
Lemma misses_stop n : forall s w fuel,
  (forall i, current_num s <= i <= current_num s + Z.of_nat n ->
             lookup_misses h (parcel_at (kvartal_number s) i)) ->
  not_found_streak s + Z.of_nat n + 1 = max_not_found s ->
  current_num s + Z.of_nat n <= end_num s ->
  (n < fuel)%nat ->
  exists s' w',
    scan_loop fuel h s w = (EarlyStop, s', w')
    /\ current_num s' = current_num s + Z.of_nat n
    /\ not_found_streak s' = max_not_found s
    /\ land_parcels s' = land_parcels s
    /\ found_count s' = found_count s
    /\ requests w'
       = requests w ++ map (parcel_at (kvartal_number s))
                         (seqZ (current_num s) (Z.of_nat n + 1)).
Proof.
  induction n as [|n IH]; intros s w fuel Hmiss Hlimit Hend Hfuel;
    (destruct fuel as [|fuel]; [lia|]); cbn [scan_loop];
    (assert (E : (current_num s <=? end_num s) = true) by (apply Z.leb_le; lia));
    rewrite E; unfold iteration;
    rewrite probe_miss by (apply Hmiss; lia);
    set (missed := set_not_found_streak (not_found_streak s + 1) s);
    set (w2 := if checkpoint_due missed then _ else _);
    (assert (Hreq : requests w2 = requests w ++ [parcel_number s])
      by (subst w2; destruct (checkpoint_due missed);
          rewrite ?save_progress_requests; reflexivity)).
  - assert (L : (max_not_found missed <=? not_found_streak missed) = true)
      by (apply Z.leb_le; cbn; lia).
    rewrite L. exists missed, w2. split; [reflexivity|].
    cbn. repeat split; try lia. rewrite Hreq. reflexivity.
  - assert (L : (max_not_found missed <=? not_found_streak missed) = false)
      by (apply Z.leb_gt; cbn; lia).
    rewrite L.
    destruct (IH (set_current_num (current_num missed + 1) missed) w2 fuel)
      as (s' & w' & Hloop & Hcur & Hstreak & Hlp & Hfc & Hrq); cbn; try lia.
    { intros i Hi. apply Hmiss. lia. }
    exists s', w'. split; [exact Hloop|]. cbn in *.
    repeat split; try lia; try assumption.
    rewrite Hrq, Hreq, <- app_assoc. f_equal.
    rewrite (seqZ_cons (current_num s)) by lia. cbn. unfold parcel_number.
    f_equal. f_equal. f_equal; lia.
Qed.

(** X24.  What the early stop does count.  A scan that arrives at
    identifier [k] with no miss pending and gets [None] from the lookup (a
    404, another status, a failed request or an undecodable body) for the
    100 identifiers [k .. k+99], all of them in the range, stops early: the
    requests it makes from [k] on are exactly those for [k .. k+99], and it
    ends with [current_num = k + 99], which is also the [last_checked] of
    its final checkpoint, and [not_found_streak = 100].  (An answer of 200
    without a land parcel is not counted as a miss.) *)
Theorem early_stop_after_100_misses s0 w0 n s w :
  passes n h s0 w0 = Some (s, w) ->
  max_not_found s0 = 100 ->
  not_found_streak s = 0 ->
  current_num s + 99 <= end_num s0 ->
  (forall i, current_num s <= i <= current_num s + 99 ->
             lookup_misses h (parcel_at (kvartal_number s0) i)) ->
  how (scan h s0 w0) = EarlyStop
  /\ current_num (final (scan h s0 w0)) = current_num s + 99
  /\ not_found_streak (final (scan h s0 w0)) = 100
  /\ requests (after (scan h s0 w0))
     = requests w ++ map (parcel_at (kvartal_number s0)) (seqZ (current_num s) 100)
  /\ (start s0 <= end_num s0 ->
      exists older doc,
        dumps (after (scan h s0 w0)) = older ++ [doc]
        /\ resume_point doc = Some (current_num s + 99 + 1)).
Proof.
  intros Hpass Hmax Hstreak Hend Hmiss.
  pose proof (passes_same_config _ _ _ _ _ Hpass) as (Hk & Hst & He & Hm & _).
  unfold scan. rewrite (passes_scan_loop _ _ _ _ _ Hpass).
  destruct (misses_stop 99 s w (remaining s))
    as (s' & w' & Hloop & Hcur & Hst' & Hlp & Hfc & Hrq).
  { intros i Hi. rewrite Hk. apply Hmiss. lia. }
  { lia. }
  { lia. }
  { unfold remaining. lia. }
  rewrite Hloop.
  destruct (finish_how_final EarlyStop s' w') as [Hhow Hfinal].
  rewrite Hhow, Hfinal, finish_requests, Hrq, Hk.
  split; [reflexivity|]. split; [lia|]. split; [lia|]. split; [reflexivity|].
  intros Hrange.
  apply scan_loop_config in Hloop as (_ & Hs1 & He1 & _).
  destruct (finish_dumps EarlyStop s' w') as (older & doc & H1 & H2 & _);
    [discriminate | lia |].
  exists older, doc. split; [exact H1|]. rewrite Hfinal in H2.
  destruct (progress_data_Some s' (List.length older)) as (doc' & Hd & _ & Hres & _);
    [lia|].
  rewrite H2 in Hd. simplify_eq. rewrite Hres, Hcur. reflexivity.
Qed.

(** ** What [scan] returns *)

(** C9.  [scan] returns [None] when the [except] branch ran and also when
    the records are empty at the end, and [main] tells the operator the
    same thing in both cases: a run without finds cannot be told from an
    aborted one by the value returned. *)
Theorem none_for_empty_and_fatal :
  (forall s w,
     fatal (scan h s w) = true \/ land_parcels (final (scan h s w)) = JList [] ->
     ret (scan h s w) = ReturnsNone)
  /\ (forall kvartal resume stdin w rep r,
        main h kvartal resume stdin w = Some (rep, r) ->
        fatal r = true \/ land_parcels (final r) = JList [] ->
        rep = NothingFound).
Proof.
  assert (Hscan : forall s w,
            fatal (scan h s w) = true \/ land_parcels (final (scan h s w)) = JList [] ->
            ret (scan h s w) = ReturnsNone).
  { intros s w. unfold scan.
    destruct (scan_loop (remaining s) h s w) as [[e s1] w1].
    destruct e; cbn; try reflexivity.
    all: destruct (truthy (land_parcels s1)) eqn:Ht;
      [destruct (DataFrame h (land_parcels s1))|]; cbn; try reflexivity.
    all: intros [H|H]; [discriminate|]; rewrite H in Ht; discriminate. }
  split; [exact Hscan|].
  intros kvartal resume stdin w rep r Hmain Hr. unfold main in Hmain.
  destruct (match files w !! _ with Some _ => _ | None => _ end) as [sc w'].
  destruct (ask_bound (start sc) 1 99999 stdin) as [[start_ stdin']|];
    [|discriminate]. cbn in Hmain.
  destruct (ask_bound _ _ 99999 stdin') as [[end_ ?]|]; [|discriminate].
  cbn in Hmain. injection Hmain as <- <-.
  rewrite (Hscan _ _ Hr). reflexivity.
Qed.

(** ** Writing a checkpoint and reading it back *)

(** What [load_progress] makes of the file [save_progress] has just
    written. *)
Lemma save_then_load s s0 w :
  end_num s - start s + 1 <> 0 ->
  temp_file s <> result_file s ->
  temp_file s0 = temp_file s ->
  py_len (land_parcels s) = Some (found_count s) ->
  (load_progress h s0 (save_progress h s w).2).1
  = (if truthy (land_parcels s) then to_excel h (land_parcels s) else true,
     set_current_num (current_num s + 1)
       (set_found_count (found_count s) (set_land_parcels (land_parcels s) s0)))
  /\ (save_progress h s w).1
     = (if truthy (land_parcels s) then to_excel h (land_parcels s) else true).
Proof.
  intros Hrange Hne Hfile Hlen.
  destruct (progress_data_Some s (List.length (dumps w)))
    as (doc & Hd & _ & Hres & Hlp & _); [lia|].
  pose proof (save_progress_file s w doc Hne Hd) as Hf.
  split.
  - unfold load_progress. rewrite Hfile, Hf, Hlp, Hlen, Hres.
    destruct (truthy (land_parcels s)); [destruct (to_excel h (land_parcels s))|];
      reflexivity.
  - unfold save_progress. rewrite Hd, Hlen. repeat case_match; reflexivity.
Qed.

(** C7.  A state written by [save_progress] and read back by
    [load_progress] (by a scanner with the same checkpoint file) comes back
    with the same records, the same [found_count], and the resume point
    [last_checked + 1] of the written state; both calls report success
    unless the spreadsheet export fails.  (The written state is a
    ScanState: [start <= end] and [found_count == len(records)].) *)
Theorem checkpoint_round_trip s s0 w :
  start s <= end_num s ->
  temp_file s <> result_file s ->
  temp_file s0 = temp_file s ->
  py_len (land_parcels s) = Some (found_count s) ->
  land_parcels (load_progress h s0 (save_progress h s w).2).1.2 = land_parcels s
  /\ found_count (load_progress h s0 (save_progress h s w).2).1.2 = found_count s
  /\ current_num (load_progress h s0 (save_progress h s w).2).1.2
     = current_num s + 1
  /\ (save_progress h s w).1
     = (if truthy (land_parcels s) then to_excel h (land_parcels s) else true)
  /\ (load_progress h s0 (save_progress h s w).2).1.1 = (save_progress h s w).1.
Proof.
  intros Hrange Hne Hfile Hlen.
  destruct (save_then_load s s0 w) as [Hload Hsave]; try assumption; [lia|].
  rewrite Hload, Hsave. cbn. repeat split.
Qed.

Lemma dict_lookup_set_ne k k' v d :
  k <> k' -> dict_lookup k (dict_set k' v d) = dict_lookup k d.
Proof.
  intros Hne. induction d as [|[k0 v0] d IH]; cbn.
  - destruct (String.eqb_spec k' k); [congruence|reflexivity].
  - destruct (String.eqb_spec k0 k') as [->|Hk]; cbn.
    + destruct (String.eqb_spec k' k); [congruence|reflexivity].
    + rewrite IH. reflexivity.
Qed.

(** C10.  After a successful [load_progress], [found_count] is the length
    of the loaded records, whatever the document holds; and what the
    document stores under [stats] (its own [found_count] included) has no
    influence on the state that is loaded. *)
Theorem found_count_rederived s w :
  (forall s' w',
     load_progress h s w = (true, s', w') ->
     py_len (land_parcels s') = Some (found_count s')
     /\ forall l, land_parcels s' = JList l ->
                  found_count s' = Z.of_nat (List.length l))
  /\ (forall d v,
        files w !! temp_file s = Some (JsonText (JDict d)) ->
        (load_progress h s
           (write_file (temp_file s) (JsonText (JDict (dict_set "stats" v d))) w)).1
        = (load_progress h s w).1).
Proof.
  split.
  - intros s' w' Hload.
    assert (Hlen : py_len (land_parcels s') = Some (found_count s')).
    { unfold load_progress in Hload.
      repeat case_match; simplify_eq; cbn; assumption. }
    split; [exact Hlen|]. intros l Hl. rewrite Hl in Hlen. cbn in Hlen.
    congruence.
  - intros d v Hfile. unfold load_progress. cbn [files write_file].
    rewrite lookup_insert_eq, Hfile. unfold resume_point. cbn.
    unfold stored_last_checked. cbn.
    rewrite !dict_lookup_set_ne by discriminate.
    repeat case_match; reflexivity.
Qed.

(** ** File names, and what every pass keeps *)

Lemma append_inj_l (p a b : string) : p +:+ a = p +:+ b -> a = b.
Proof. induction p as [|c p IH]; cbn; intros H; [exact H|]. injection H. exact IH. Qed.

Lemma LandParcelScanner_paths kvartal start_ end_ :
  temp_file (LandParcelScanner h kvartal start_ end_)
  <> result_file (LandParcelScanner h kvartal start_ end_).
Proof. cbn. intros H. apply append_inj_l in H. discriminate. Qed.

(** The three ways a lookup can end, for a scanner whose records are a
    list. *)
Lemma probe_cases s w l :
  land_parcels s = JList l ->
  probe h s w
  = (Some (set_not_found_streak (not_found_streak s + 1) s),
     record_request (parcel_number s) w)
  \/ probe h s w = (Some s, record_request (parcel_number s) w)
  \/ exists parcel_info,
       probe h s w
       = (Some (set_not_found_streak 0
                  (set_found_count (found_count s + 1)
                     (set_land_parcels (JList (l ++ [parcel_info])) s))),
          record_request (parcel_number s) w).
Proof.
  intros Hl. unfold probe. rewrite fetch_parcel_data_eq, Hl.
  destruct (is_None _); [left; reflexivity|].
  destruct (truthy _); [|right; left; reflexivity].
  right. right. eexists. reflexivity.
Qed.






End Scanner.

(** ** Resuming in another run *)


Section TwoRuns.

(** [hu] is the host of the run that is interrupted (and of the scan it
    would have made without the interrupt), [hr] the host of the run that
    resumes it.  The two get the same answers from the remote, [str] is
    the same function in both, and the scanner of the second is built
    within the minute in which the scanner of the first was.  Nothing is
    assumed of their other clock readings and of their exports. *)
Context (hu hr : Host).
Hypothesis Hget : forall p, session_get hr p = session_get hu p.
Hypothesis Hstr : forall x, py_str hr x = py_str hu x.
Hypothesis Hstarted : started hr = started hu.





Section View.

Context (view : json -> json).
Hypothesis Hview : forall data p,
  view (parse_parcel_data hr data p) = view (parse_parcel_data hu data p).




End View.

End TwoRuns.


(** ** A failed lookup, on any host *)

(** C8.  A failure of the lookup call itself (the request raises, the
    status is neither 200 nor 404, the body of a 200 cannot be decoded) is
    handled inside [fetch_parcel_data] and reaches the loop as [None], the
    value a 404 gives: the pass counts one more miss, appends no record,
    raises nothing, and is the very pass a 404 would have produced; unless
    that miss fills the limit of misses in a row, the loop goes on with the
    next number. *)
Theorem lookup_failure_is_a_miss h s w r :
  lookup_fails r ->
  let failing := answering h (parcel_number s) r in
  let absent := answering h (parcel_number s) (Status 404 None) in
  let missed := set_not_found_streak (not_found_streak s + 1) s in
  probe failing s w = (Some missed, record_request (parcel_number s) w)
  /\ land_parcels missed = land_parcels s
  /\ found_count missed = found_count s
  /\ iteration failing s w = iteration absent s w
  /\ (forall s' w', iteration failing s w <> Fatal s' w')
  /\ (not_found_streak s + 1 < max_not_found s ->
      exists w', iteration failing s w
                 = Next (set_current_num (current_num s + 1) missed) w').
Proof.
  intros Hr failing absent missed.
  assert (Hf : probe failing s w
               = (Some missed, record_request (parcel_number s) w))
    by (apply probe_miss, lookup_fails_misses, Hr).
  assert (Ha : probe absent s w
               = (Some missed, record_request (parcel_number s) w)).
  { apply probe_miss, not_found_misses. }
  split; [exact Hf|]. split; [reflexivity|]. split; [reflexivity|].
  split; [|split].
  - unfold iteration. rewrite Hf, Ha. reflexivity.
  - intros s' w'. unfold iteration. rewrite Hf.
    destruct (max_not_found missed <=? not_found_streak missed); discriminate.
  - intros Hlt. unfold iteration. rewrite Hf.
    destruct (max_not_found missed <=? not_found_streak missed) eqn:E.
    + apply Z.leb_le in E. cbn in E. lia.
    + eexists. reflexivity.
Qed.

(** ** The claims on concrete runs *)

(** A request that raises on the first number of the example block. *)
Lemma lookup_failure_is_a_miss_witness :
  probe (answering (host_with [3]) (parcel_at block 1) Raises)
        (LandParcelScanner (host_with [3]) block 1 5) empty_world
  = (Some (set_not_found_streak 1 (LandParcelScanner (host_with [3]) block 1 5)),
     record_request (parcel_at block 1) empty_world).
Proof.
  exact (proj1 (lookup_failure_is_a_miss (host_with [3])
                  (LandParcelScanner (host_with [3]) block 1 5)
                  empty_world Raises I)).
Defined.

(** C3.  The code at a payload that holds no land-parcel feature, be it
    an answer with an empty feature list or one whose only feature is a
    building: the pass leaves [not_found_streak] as it was (7 stays 7,
    where the claim asks for 8), because line 192 has no [else]; only a
    lookup that comes back as [None] is counted.  A block whose 150
    numbers are all answered with the empty list is scanned to its end,
    the streak still 0. *)
Theorem payload_without_parcel_keeps_streak :
  probe (host_always (Status 200 (Some empty_payload)))
        (set_not_found_streak 7
           (LandParcelScanner (host_always (Status 200 (Some empty_payload)))
              block 1 150))
        empty_world
  = (Some (set_not_found_streak 7
             (LandParcelScanner (host_always (Status 200 (Some empty_payload)))
                block 1 150)),
     record_request (parcel_at block 1) empty_world)
  /\ probe (host_always (Status 200 (Some building_payload)))
        (set_not_found_streak 7
           (LandParcelScanner (host_always (Status 200 (Some building_payload)))
              block 1 150))
        empty_world
     = (Some (set_not_found_streak 7
                (LandParcelScanner (host_always (Status 200 (Some building_payload)))
                   block 1 150)),
        record_request (parcel_at block 1) empty_world)
  /\ how (scan (host_always (Status 200 (Some empty_payload)))
            (LandParcelScanner (host_always (Status 200 (Some empty_payload)))
               block 1 150)
            empty_world) = Exhausted
  /\ current_num
       (final (scan (host_always (Status 200 (Some empty_payload)))
                 (LandParcelScanner (host_always (Status 200 (Some empty_payload)))
                    block 1 150)
                 empty_world)) = 151
  /\ not_found_streak
       (final (scan (host_always (Status 200 (Some empty_payload)))
                 (LandParcelScanner (host_always (Status 200 (Some empty_payload)))
                    block 1 150)
                 empty_world)) = 0.
Proof. vm_compute. repeat split. Qed.

(** C6.  The code on 100 not-found outcomes in a row.  Block 77:01:0001001
    holds no parcel; the remote answers number 2 with an empty feature list
    and every other number with 404, so that no lookup from 1 on finds a
    parcel.  The claim has the scan of 1-9999 stop at 100 with number 101
    never asked for; the code stops at 101, having asked for 1 .. 101, and
    its final checkpoint has [last_checked = 101]: the empty answer at 2
    is not counted (line 192 has no [else]), so the streak reaches 100 one
    number later.  And when every number is
    answered with an empty feature list the scan of 1-150 never stops
    early: it asks for all 150 numbers and ends with a streak of 0. *)
Theorem early_stop_skips_empty_answers :
  (forall n, find_at (host_with_empty_answers [2]) block n = None)
  /\ how (scan (host_with_empty_answers [2])
            (LandParcelScanner (host_with_empty_answers [2]) block 1 9999)
            empty_world) = EarlyStop
  /\ current_num
       (final (scan (host_with_empty_answers [2])
                 (LandParcelScanner (host_with_empty_answers [2]) block 1 9999)
                 empty_world)) = 101
  /\ not_found_streak
       (final (scan (host_with_empty_answers [2])
                 (LandParcelScanner (host_with_empty_answers [2]) block 1 9999)
                 empty_world)) = 100
  /\ requests
       (after (scan (host_with_empty_answers [2])
                 (LandParcelScanner (host_with_empty_answers [2]) block 1 9999)
                 empty_world))
     = map (parcel_at block) (seqZ 1 101)
  /\ (exists doc,
        dumps
          (after (scan (host_with_empty_answers [2])
                    (LandParcelScanner (host_with_empty_answers [2]) block 1 9999)
                    empty_world)) = [doc]
        /\ stored_last_checked doc = Some (JInt 101))
  /\ (forall n, find_at (host_always (Status 200 (Some empty_payload))) block n
                = None)
  /\ how (scan (host_always (Status 200 (Some empty_payload)))
            (LandParcelScanner (host_always (Status 200 (Some empty_payload)))
               block 1 150)
            empty_world) = Exhausted
  /\ requests
       (after (scan (host_always (Status 200 (Some empty_payload)))
                 (LandParcelScanner (host_always (Status 200 (Some empty_payload)))
                    block 1 150)
                 empty_world))
     = map (parcel_at block) (seqZ 1 150).
Proof.
  split.
  { intros n. unfold find_at, fetch_parcel_data. cbn.
    destruct (_ || false); reflexivity. }
  split; [vm_compute; reflexivity|].
  split; [vm_compute; reflexivity|].
  split; [vm_compute; reflexivity|].
  split; [vm_compute; reflexivity|].
  split; [eexists; split; vm_compute; reflexivity|].
  split; [intros n; reflexivity|].
  split; vm_compute; reflexivity.
Qed.

(** The first find at number 50: the pass writes the checkpoint. *)
Lemma checkpoint_when_due_witness :
  exists doc,
    files (world_of (iteration (host_with [50])
                       (LandParcelScanner (host_with [50]) block 50 100)
                       empty_world))
      !! temp_file (LandParcelScanner (host_with [50]) block 50 100)
    = Some (JsonText doc)
    /\ stored_last_checked doc = Some (JInt 50).
Proof.
  edestruct (checkpoint_when_due (host_with [50])
               (LandParcelScanner (host_with [50]) block 50 100) empty_world)
    as (doc & _ & Hfile & _ & Hres & _).
  - vm_compute. discriminate.
  - vm_compute. discriminate.
  - vm_compute. reflexivity.
  - vm_compute. reflexivity.
  - right. vm_compute. reflexivity.
  - exists doc. split; [exact Hfile | exact Hres].
Defined.

(** C4, as stated, fails: in a block without parcels the pass for number
    50 has [found_count = 0] and [current_num % 50 = 0], so the claimed
    condition holds, and no checkpoint is written in that pass. *)
Lemma trigger_as_claimed_fails :
  exists s w s1 w1,
    passes 49 (host_with []) (LandParcelScanner (host_with []) block 1 100)
      empty_world = Some (s, w)
    /\ probe (host_with []) s w = (Some s1, w1)
    /\ current_num s1 = 50 /\ found_count s1 = 0
    /\ claimed_trigger s1 = true
    /\ dumps (world_of (iteration (host_with []) s w)) = dumps w.
Proof.
  do 4 eexists. split; [vm_compute; reflexivity|].
  split; [vm_compute; reflexivity|]. vm_compute. repeat split.
Qed.

(** The example run ends with a dump of its final state. *)
Lemma checkpoint_trigger_exact_witness :
  exists older doc,
    dumps (after (scan (host_with [3]) (LandParcelScanner (host_with [3]) block 1 5)
                    empty_world)) = older ++ [doc]
    /\ progress_data (host_with [3])
         (final (scan (host_with [3]) (LandParcelScanner (host_with [3]) block 1 5)
                   empty_world)) (List.length older) = Some doc
    /\ (List.length (dumps empty_world) <= List.length older)%nat.
Proof.
  apply (checkpoint_trigger_exact (host_with [3])
           (LandParcelScanner (host_with [3]) block 1 5) empty_world).
  vm_compute. discriminate.
Defined.

(** A block without parcels: the scan of 1-9999 stops at 100. *)
Lemma early_stop_after_100_misses_witness :
  how (scan (host_with []) (LandParcelScanner (host_with []) block 1 9999)
         empty_world) = EarlyStop
  /\ current_num (final (scan (host_with [])
                           (LandParcelScanner (host_with []) block 1 9999)
                           empty_world)) = 1 + 99
  /\ not_found_streak (final (scan (host_with [])
                                (LandParcelScanner (host_with []) block 1 9999)
                                empty_world)) = 100.
Proof.
  destruct (early_stop_after_100_misses (host_with [])
              (LandParcelScanner (host_with []) block 1 9999) empty_world 0%nat
              (LandParcelScanner (host_with []) block 1 9999) empty_world)
    as (H1 & H2 & H3 & _).
  - reflexivity.
  - reflexivity.
  - reflexivity.
  - vm_compute. discriminate.
  - intros i _. reflexivity.
  - split; [exact H1|]. split; [exact H2 | exact H3].
Defined.

(** Mid-scan: after the find at number 1, the misses 2-101 stop the
    scan at 101. *)
Example early_stop_after_a_find :
  how (scan (host_with [1]) (LandParcelScanner (host_with [1]) block 1 9999)
         empty_world) = EarlyStop
  /\ current_num (final (scan (host_with [1])
                           (LandParcelScanner (host_with [1]) block 1 9999)
                           empty_world)) = 101
  /\ not_found_streak (final (scan (host_with [1])
                                (LandParcelScanner (host_with [1]) block 1 9999)
                                empty_world)) = 100.
Proof. vm_compute. repeat split. Qed.

(** A run aborted by an exception: resumed from [broken_checkpoint], the
    scan raises at the first find ([None] has no [append]), and the
    operator is told what a run without finds is told. *)
Example aborted_run_reports_nothing_found :
  exists r,
    main (host_with [3]) block true [Blank; Typed 5]
      (write_file (temp_file (LandParcelScanner (host_with [3]) block 1 9999))
         (JsonText broken_checkpoint) empty_world)
    = Some (NothingFound, r)
    /\ how r = Crashed /\ fatal r = true /\ ret r = ReturnsNone
    /\ requests (after r) = map (parcel_at block) [1; 2; 3].
Proof. eexists. split; [vm_compute; reflexivity|]. vm_compute. repeat split. Qed.

(** A scan of five numbers without a find returns [None]. *)
Lemma none_for_empty_and_fatal_witness :
  ret (scan (host_with []) (LandParcelScanner (host_with []) block 1 5)
         empty_world) = ReturnsNone.
Proof.
  apply (proj1 (none_for_empty_and_fatal (host_with []))).
  right. vm_compute. reflexivity.
Defined.

(** The final state of the example run, saved and loaded. *)
Lemma checkpoint_round_trip_witness :
  current_num
    (load_progress (host_with [3]) (LandParcelScanner (host_with [3]) block 1 5)
       (save_progress (host_with [3])
          (final (scan (host_with [3]) (LandParcelScanner (host_with [3]) block 1 5)
                    empty_world))
          empty_world).2).1.2
  = 6 + 1.
Proof.
  refine (proj1 (proj2 (proj2
    (checkpoint_round_trip (host_with [3])
       (final (scan (host_with [3]) (LandParcelScanner (host_with [3]) block 1 5)
                 empty_world))
       (LandParcelScanner (host_with [3]) block 1 5) empty_world _ _ _ _)))).
  - vm_compute. discriminate.
  - vm_compute. discriminate.
  - reflexivity.
  - reflexivity.
Defined.

(** Loading the doctored checkpoint. *)
Lemma found_count_rederived_witness :
  py_len (land_parcels
    (load_progress (host_with [])
       (LandParcelScanner (host_with []) block 1 9999)
       (write_file (temp_file (LandParcelScanner (host_with []) block 1 9999))
          (JsonText doctored_checkpoint) empty_world)).1.2)
  = Some (found_count
    (load_progress (host_with [])
       (LandParcelScanner (host_with []) block 1 9999)
       (write_file (temp_file (LandParcelScanner (host_with []) block 1 9999))
          (JsonText doctored_checkpoint) empty_world)).1.2).
Proof.
  refine (proj1 (proj1 (found_count_rederived (host_with [])
            (LandParcelScanner (host_with []) block 1 9999)
            (write_file (temp_file (LandParcelScanner (host_with []) block 1 9999))
               (JsonText doctored_checkpoint) empty_world)) _ _ _)).
  reflexivity.
Defined.

(** The doctored checkpoint loads with [found_count = 1]. *)
Example doctored_checkpoint_loads :
  exists s' w',
    load_progress (host_with [])
      (LandParcelScanner (host_with []) block 1 9999)
      (write_file (temp_file (LandParcelScanner (host_with []) block 1 9999))
         (JsonText doctored_checkpoint) empty_world) = (true, s', w')
    /\ found_count s' = 1 /\ current_num s' = 4.
Proof. do 2 eexists. split; [reflexivity|]. split; reflexivity. Qed.

(** C2.  The code on the example: block 77:01:0001001, range 1-5, a remote
    that knows parcel 3 only.  The scan ends with one record, whose
    cadastral number is 77:01:0001001:3, and [found_count = 1], as the
    claim says; but the one checkpoint it writes, the final one, has
    [last_checked = 6], not 5: the loop leaves [current_num] one past
    [end], a number that was never probed, and [save_progress] stores
    it. *)
Theorem end_to_end_example :
  how example_run = Exhausted
  /\ (exists rec,
        land_parcels (final example_run) = JList [rec]
        /\ py_get rec "Кадастровый номер" JNull = Some (JStr "77:01:0001001:3"))
  /\ found_count (final example_run) = 1
  /\ requests (after example_run) = map (parcel_at block) [1; 2; 3; 4; 5]
  /\ (exists doc,
        dumps (after example_run) = [doc]
        /\ files (after example_run) !! temp_file (final example_run)
           = Some (JsonText doc)
        /\ stored_last_checked doc = Some (JInt 6)).
Proof.
  split; [vm_compute; reflexivity|].
  split; [eexists; split; vm_compute; reflexivity|].
  split; [vm_compute; reflexivity|].
  split; [vm_compute; reflexivity|].
  eexists. split; [vm_compute; reflexivity|].
  split; vm_compute; reflexivity.
Qed.


(** A scanner built a minute later looks into another folder: it finds no
    checkpoint, [load_progress] returns [False] and leaves it as it was. *)
Example later_minute_finds_no_checkpoint :
  load_progress (host_next_minute [3])
    (LandParcelScanner (host_next_minute [3]) block 1 5) interrupted_world
  = (false, LandParcelScanner (host_next_minute [3]) block 1 5, interrupted_world)
  /\ temp_file (LandParcelScanner (host_next_minute [3]) block 1 5)
     <> temp_file (LandParcelScanner (host_with [3]) block 1 5).
Proof. split; [vm_compute; reflexivity | vm_compute; discriminate]. Qed.


(** What [main] does with the checkpoint of [interrupted_world]: line 282
    sets [current_num] back to [start] after [load_progress] has set it
    to 4, so numbers 1-3 are asked for again and parcel 3 is recorded
    twice. *)
Example main_resume_rescans :
  exists r rec,
    main (host_with [3]) block true [Blank; Typed 5] interrupted_world
    = Some (FoundParcels, r)
    /\ land_parcels (final r) = JList [rec; rec]
    /\ requests (after r) = map (parcel_at block) [1; 2; 3; 1; 2; 3; 4; 5].
Proof.
  do 2 eexists. split; [vm_compute; reflexivity|].
  split; vm_compute; reflexivity.
Qed.

(** * Further properties of the code *)

(** ** File names and parcel numbers *)

Lemma str_of_int_inj a b : str_of_int a = str_of_int b -> a = b.
Proof.
  assert (Hback : forall z,
            NilZero.int_of_string (str_of_int z) = Some (Z.to_int z)).
  { intros z. apply NilZero.isi; destruct z; cbn; try discriminate;
      intros E; injection E; apply Unsigned.to_uint_nonnil. }
  intros H. apply to_int_inj.
  pose proof (Hback a) as Ha. rewrite H, Hback in Ha. congruence.
Qed.

Lemma parcel_at_injective kvartal n m :
  parcel_at kvartal n = parcel_at kvartal m -> n = m.
Proof.
  unfold parcel_at. intros H. apply append_inj_l in H.
  injection H as H. apply str_of_int_inj, H.
Qed.

(** X1.  Within a block, different numbers give different parcel numbers
    (the decimal rendering of [f"{kvartal}:{n}"] determines [n]), so the
    parcel numbers of a run of consecutive numbers are pairwise
    different. *)
Theorem parcel_numbers_distinct kvartal n m first count :
  (parcel_at kvartal n = parcel_at kvartal m -> n = m)
  /\ NoDup (map (parcel_at kvartal) (seqZ first count)).
Proof.
  split; [apply parcel_at_injective|].
  apply NoDup_fmap_2; [|apply NoDup_seqZ].
  intros a b. apply parcel_at_injective.
Qed.

Lemma append_length (x y : string) :
  String.length (x +:+ y) = (String.length x + String.length y)%nat.
Proof. induction x as [|c x IH]; simpl; [reflexivity|]. f_equal. exact IH. Qed.

Lemma append_inj_r (x y suffix : string) :
  x +:+ suffix = y +:+ suffix -> x = y.
Proof.
  revert y. induction x as [|c x IH]; intros [|d y] H.
  - reflexivity.
  - apply (f_equal String.length) in H.
    rewrite !append_length in H. simpl in H. lia.
  - apply (f_equal String.length) in H.
    rewrite !append_length in H. simpl in H. lia.
  - simpl in H. injection H as -> H. f_equal. apply IH, H.
Qed.

Lemma replace_colon_inj x : forall y,
  digits_and_colons x = true -> digits_and_colons y = true ->
  replace_colon x = replace_colon y -> x = y.
Proof.
  induction x as [|a x IH]; intros [|b y] Hx Hy H; cbn in *;
    try discriminate; try reflexivity.
  apply andb_true_iff in Hx as [Ha Hx]. apply andb_true_iff in Hy as [Hb Hy].
  injection H as Hab H. f_equal; [|apply IH; assumption].
  destruct (Ascii.eqb_spec a ":"%char) as [->|Hna],
           (Ascii.eqb_spec b ":"%char) as [->|Hnb];
    try reflexivity; try assumption.
  - subst b. rewrite orb_false_r in Hb. discriminate.
  - subst a. rewrite orb_false_r in Ha. discriminate.
Qed.

(** X2.  Checkpoints of different blocks do not collide: for block
    numbers made of digits and colons, different numbers give different
    checkpoint files and different spreadsheets, and no checkpoint file is
    the spreadsheet of any block. *)
Theorem files_of_blocks_distinct h k1 k2 a1 b1 a2 b2 :
  digits_and_colons k1 = true -> digits_and_colons k2 = true -> k1 <> k2 ->
  temp_file (LandParcelScanner h k1 a1 b1) <> temp_file (LandParcelScanner h k2 a2 b2)
  /\ result_file (LandParcelScanner h k1 a1 b1)
     <> result_file (LandParcelScanner h k2 a2 b2)
  /\ temp_file (LandParcelScanner h k1 a1 b1)
     <> result_file (LandParcelScanner h k2 a2 b2).
Proof.
  intros H1 H2 Hne. cbn. repeat split; intros H; apply append_inj_l in H.
  - apply (append_inj_l "/temp_") in H. apply append_inj_r in H.
    apply Hne, replace_colon_inj; assumption.
  - apply (append_inj_l "/parcels_") in H. apply append_inj_r in H.
    apply Hne, replace_colon_inj; assumption.
  - discriminate.
Qed.

(** Blocks 77:01:0001001 and 77:01:0001002. *)
Lemma files_of_blocks_distinct_witness :
  temp_file (LandParcelScanner (host_with []) block 1 9999)
  <> temp_file (LandParcelScanner (host_with []) "77:01:0001002" 1 9999).
Proof.
  apply (files_of_blocks_distinct (host_with []) block "77:01:0001002"
           1 9999 1 9999); [reflexivity | reflexivity | discriminate].
Defined.

(** ** What [parse_parcel_data] extracts *)

Lemma parcel_record_shape h feature options parcel_num :
  parcel_record h feature options parcel_num = None
  \/ exists d,
       parcel_record h feature options parcel_num = Some (JDict d)
       /\ map fst d = record_keys
       /\ (exists c, dict_lookup "Координаты" d = Some (JStr c))
       /\ dict_lookup "Источник данных" d = Some (JStr "НСПД РФ")
       /\ dict_lookup "Дата проверки" d = Some (JStr (check_date h parcel_num)).
Proof.
  unfold parcel_record.
  destruct options as [| | | | |od]; try (left; reflexivity).
  destruct (py_get feature "geometry" (JDict [])) as [geometry|];
    cbn; [|left; reflexivity].
  destruct (py_get geometry "coordinates" (JStr "")) as [c|];
    cbn; [|left; reflexivity].
  right. eexists. split; [reflexivity|]. cbn. repeat split. eexists. reflexivity.
Qed.

Lemma first_land_parcel_shape h features parcel_num :
  first_land_parcel h features parcel_num = None
  \/ first_land_parcel h features parcel_num = Some JNull
  \/ exists d,
       first_land_parcel h features parcel_num = Some (JDict d)
       /\ map fst d = record_keys
       /\ (exists c, dict_lookup "Координаты" d = Some (JStr c))
       /\ dict_lookup "Источник данных" d = Some (JStr "НСПД РФ")
       /\ dict_lookup "Дата проверки" d = Some (JStr (check_date h parcel_num)).
Proof.
  induction features as [|feature rest IH]; cbn [first_land_parcel].
  - right. left. reflexivity.
  - destruct (py_get feature "properties" (JDict [])) as [props|];
      cbn; [|left; reflexivity].
    destruct (py_get props "categoryName" JNull) as [category|];
      cbn; [|left; reflexivity].
    destruct (py_eq_str category land_category); [|exact IH].
    destruct (py_get props "options" (JDict [])) as [options|];
      cbn; [|left; reflexivity].
    destruct (parcel_record_shape h feature options parcel_num) as [H|H];
      [left; exact H | right; right; exact H].
Qed.

(** X3.  [parse_parcel_data] raises nothing and returns, for any payload
    at all, either [None] or a record with the fourteen fields of
    [record_keys] in that order, whose coordinates are a string, whose
    source tag is the fixed one and whose check date is the clock
    reading. *)
Theorem parse_parcel_data_shape h data parcel_num :
  parse_parcel_data h data parcel_num = JNull
  \/ exists d,
       parse_parcel_data h data parcel_num = JDict d
       /\ map fst d = record_keys
       /\ (exists c, dict_lookup "Координаты" d = Some (JStr c))
       /\ dict_lookup "Источник данных" d = Some (JStr "НСПД РФ")
       /\ dict_lookup "Дата проверки" d = Some (JStr (check_date h parcel_num)).
Proof.
  unfold parse_parcel_data.
  destruct (py_get data "data" (JDict [])) as [d|]; cbn; [|left; reflexivity].
  destruct (py_get d "features" (JList [])) as [features|]; cbn;
    [|left; reflexivity].
  destruct (py_iter features) as [l|]; cbn; [|left; reflexivity].
  destruct (first_land_parcel_shape h l parcel_num) as [H|[H|(r & H & Hr)]];
    rewrite H; [left; reflexivity | left; reflexivity |].
  right. exists r. split; [reflexivity | exact Hr].
Qed.

Lemma first_land_parcel_skips h pre rest parcel_num :
  Forall is_other_object pre ->
  first_land_parcel h (pre ++ rest) parcel_num
  = first_land_parcel h rest parcel_num.
Proof.
  induction 1 as [|feature pre (category & Hc & Hno) _ IH]; [reflexivity|].
  cbn [app first_land_parcel]. unfold feature_category in Hc.
  destruct (py_get feature "properties" (JDict [])) as [props|];
    cbn in Hc |- *; [|discriminate].
  rewrite Hc. cbn. rewrite Hno. exact IH.
Qed.

Lemma first_land_parcel_takes h feature post parcel_num :
  is_land_parcel feature ->
  first_land_parcel h (feature :: post) parcel_num
  = first_land_parcel h [feature] parcel_num.
Proof.
  intros (category & Hc & Hyes). cbn [first_land_parcel].
  unfold feature_category in Hc.
  destruct (py_get feature "properties" (JDict [])) as [props|];
    cbn in Hc |- *; [|discriminate].
  rewrite Hc. cbn. rewrite Hyes. reflexivity.
Qed.

(** X4.  [parse_parcel_data] reads the first land-parcel feature and
    nothing after it: features of other categories in front of it are
    stepped over, and whatever follows it (further parcels, malformed
    entries) has no influence on the result. *)
Theorem parse_takes_first_land_parcel h data d pre feature post parcel_num :
  py_get data "data" (JDict []) = Some d ->
  py_get d "features" (JList []) = Some (JList (pre ++ feature :: post)) ->
  Forall is_other_object pre ->
  is_land_parcel feature ->
  parse_parcel_data h data parcel_num
  = parse_parcel_data h (payload_of [feature]) parcel_num.
Proof.
  intros Hd Hf Hpre Hland. unfold parse_parcel_data, payload_of.
  rewrite Hd. cbn. rewrite Hf. cbn.
  rewrite first_land_parcel_skips by exact Hpre.
  rewrite first_land_parcel_takes by exact Hland. reflexivity.
Qed.

(** X5.  One unreadable feature hides every parcel behind it: when a
    feature that is not a dict (or whose [properties] is not a dict) comes
    before the first land parcel, the exception it raises ends the whole
    extraction and the result is [None]. *)
Theorem parse_stops_at_unreadable_feature h data d pre feature post parcel_num :
  py_get data "data" (JDict []) = Some d ->
  py_get d "features" (JList []) = Some (JList (pre ++ feature :: post)) ->
  Forall is_other_object pre ->
  feature_category feature = None ->
  parse_parcel_data h data parcel_num = JNull.
Proof.
  intros Hd Hf Hpre Hbad. unfold parse_parcel_data.
  rewrite Hd. cbn. rewrite Hf. cbn.
  rewrite first_land_parcel_skips by exact Hpre.
  cbn [first_land_parcel]. unfold feature_category in Hbad.
  destruct (py_get feature "properties" (JDict [])) as [props|];
    cbn in Hbad |- *; [|reflexivity].
  rewrite Hbad. reflexivity.
Qed.

(** X6.  A land-parcel feature whose [options] and [geometry] are dicts (or
    absent) always gives a record, whatever the options hold: its
    cadastral number is the [cad_num] of the options and, without one, the
    parcel number that was asked for; its area is [area] unless that is
    missing or falsy, and then [specified_area]. *)
Theorem parse_record_fields h feature props category od gd post parcel_num :
  py_get feature "properties" (JDict []) = Some props ->
  py_get props "categoryName" JNull = Some category ->
  py_eq_str category land_category = true ->
  py_get props "options" (JDict []) = Some (JDict od) ->
  py_get feature "geometry" (JDict []) = Some (JDict gd) ->
  exists rec,
    parse_parcel_data h (payload_of (feature :: post)) parcel_num = JDict rec
    /\ truthy (JDict rec) = true
    /\ dict_lookup "Кадастровый номер" rec
       = Some (match dict_lookup "cad_num" od with
               | Some v => v
               | None => JStr parcel_num
               end)
    /\ dict_lookup "Площадь (кв.м)" rec
       = Some (py_or (match dict_lookup "area" od with
                      | Some v => v
                      | None => JNull
                      end)
                     (match dict_lookup "specified_area" od with
                      | Some v => v
                      | None => JStr ""
                      end)).
Proof.
  intros Hp Hc Hyes Ho Hg. unfold parse_parcel_data, payload_of. cbn.
  rewrite Hp. cbn. rewrite Hc. cbn. rewrite Hyes, Ho. cbn.
  unfold parcel_record. cbn. rewrite Hg. cbn.
  eexists. split; [reflexivity|]. repeat split.
Qed.

(** A building, a parcel, and an entry that is no feature at all. *)
Lemma parse_takes_first_land_parcel_witness :
  parse_parcel_data (host_with [])
    (payload_of [building_feature; parcel_feature "77:01:0001001:3"; JNull])
    "77:01:0001001:3"
  = parse_parcel_data (host_with [])
      (payload_of [parcel_feature "77:01:0001001:3"]) "77:01:0001001:3".
Proof.
  eapply parse_takes_first_land_parcel
    with (pre := [building_feature]) (post := [JNull]).
  - reflexivity.
  - reflexivity.
  - constructor; [|constructor]. eexists. split; reflexivity.
  - eexists. split; reflexivity.
Defined.

(** A [null] entry in front of a parcel. *)
Lemma parse_stops_at_unreadable_feature_witness :
  parse_parcel_data (host_with [])
    (payload_of [JNull; parcel_feature "77:01:0001001:3"]) "77:01:0001001:3"
  = JNull.
Proof.
  eapply parse_stops_at_unreadable_feature
    with (pre := []) (feature := JNull)
         (post := [parcel_feature "77:01:0001001:3"]).
  - reflexivity.
  - reflexivity.
  - constructor.
  - reflexivity.
Defined.

(** The parcel feature, asked for under another number: the record keeps
    the [cad_num] of the payload, and the area 0 gives way to the
    specified area. *)
Lemma parse_record_fields_witness :
  exists rec,
    parse_parcel_data (host_with [])
      (payload_of [parcel_feature "77:01:0001001:3"]) "77:01:0001001:4"
    = JDict rec
    /\ dict_lookup "Кадастровый номер" rec = Some (JStr "77:01:0001001:3")
    /\ dict_lookup "Площадь (кв.м)" rec = Some (JInt 612).
Proof.
  edestruct parse_record_fields
    with (h := host_with []) (feature := parcel_feature "77:01:0001001:3")
         (post := @nil json) (parcel_num := "77:01:0001001:4")
    as (rec & Hrec & _ & Hcad & Harea).
  - reflexivity.
  - reflexivity.
  - reflexivity.
  - reflexivity.
  - reflexivity.
  - exists rec. split; [exact Hrec|]. split; [exact Hcad | exact Harea].
Defined.

(** ** What a scan asks for and what it records *)

Section ScanTrace.

Context (h : Host).

Lemma seqZ_head c (k : nat) :
  seqZ c (Z.of_nat (S k)) = c :: seqZ (c + 1) (Z.of_nat k).
Proof.
  rewrite seqZ_cons by lia. f_equal. f_equal; lia.
Qed.

(** What the lookup of one pass does to a scanner whose records are a
    list. *)
Lemma probe_find s w l :
  land_parcels s = JList l ->
  exists s1,
    probe h s w = (Some s1, record_request (parcel_number s) w)
    /\ same_config s s1 /\ current_num s1 = current_num s
    /\ land_parcels s1
       = JList (l ++ omap (find_at h (kvartal_number s)) [current_num s])
    /\ found_count s1
       = found_count s
         + Z.of_nat (List.length
                       (omap (find_at h (kvartal_number s)) [current_num s])).
Proof.
  intros Hl. unfold probe, find_at, parcel_number.
  rewrite (fetch_parcel_data_eq h _ w), Hl. cbn [omap list_omap].
  set (p := parcel_at (kvartal_number s) (current_num s)).
  destruct (is_None (fetch_parcel_data h p empty_world).1).
  { eexists. split; [reflexivity|]. cbn. rewrite app_nil_r.
    repeat split; try reflexivity; try assumption; lia. }
  destruct (truthy (parse_parcel_data h (fetch_parcel_data h p empty_world).1 p)).
  - eexists. split; [reflexivity|]. cbn.
    repeat split; try reflexivity; try assumption; lia.
  - eexists. split; [reflexivity|]. cbn. rewrite app_nil_r.
    repeat split; try reflexivity; try assumption; lia.
Qed.

Lemma checkpoint_requests s1 w1 :
  requests (if checkpoint_due s1 then (save_progress h s1 w1).2 else w1)
  = requests w1.
Proof. destruct (checkpoint_due s1); [apply save_progress_requests | reflexivity]. Qed.

(** The loop, pass by pass: the numbers asked for are consecutive from
    [current_num], and the records grow by what is found at them. *)
Lemma scan_loop_trace n : forall s w l0 e s' w',
  land_parcels s = JList l0 ->
  scan_loop n h s w = (e, s', w') ->
  e = OutOfFuel
  \/ exists k : nat,
       (k <= remaining s)%nat
       /\ requests w'
          = requests w ++ map (parcel_at (kvartal_number s))
                            (seqZ (current_num s) (Z.of_nat k))
       /\ land_parcels s'
          = JList (l0 ++ omap (find_at h (kvartal_number s))
                          (seqZ (current_num s) (Z.of_nat k)))
       /\ found_count s'
          = found_count s
            + Z.of_nat (List.length
                          (omap (find_at h (kvartal_number s))
                             (seqZ (current_num s) (Z.of_nat k))))
       /\ ((e = Exhausted /\ k = remaining s
            /\ current_num s' = current_num s + Z.of_nat k)
           \/ (e = EarlyStop /\ (0 < k)%nat
               /\ current_num s' = current_num s + Z.of_nat k - 1)).
Proof.
  induction n as [|n IH]; intros s w l0 e s' w' Hl; cbn [scan_loop];
    destruct (current_num s <=? end_num s) eqn:E.
  - intros; simplify_eq. left. reflexivity.
  - intros; simplify_eq. right. exists 0%nat. apply Z.leb_gt in E.
    rewrite !seqZ_nil by reflexivity. cbn. rewrite !app_nil_r.
    split; [lia|]. split; [reflexivity|]. split; [assumption|].
    split; [lia|]. left. unfold remaining. repeat split; lia.
  - apply Z.leb_le in E. unfold iteration.
    destruct (probe_find s w l0 Hl)
      as (s1 & -> & (Hkv & Hst & Hen & Hmx & _) & Hc1 & Hl1 & Hf1).
    pose proof (checkpoint_requests s1 (record_request (parcel_number s) w))
      as Hrq.
    set (w2 := if checkpoint_due s1 then _ else _) in *.
    destruct (max_not_found s1 <=? not_found_streak s1).
    + intros; simplify_eq. right. exists 1%nat.
      change (Z.of_nat 1) with 1. rewrite (seqZ_cons _ 1) by lia. cbn [seqZ].
      replace (seqZ (Z.succ (current_num s)) (Z.pred 1)) with (@nil Z)
        by reflexivity.
      split; [unfold remaining; lia|]. split; [rewrite Hrq; reflexivity|].
      split; [exact Hl1|]. split; [exact Hf1|].
      right. repeat split; lia.
    + intros Hloop.
      destruct (IH (set_current_num (current_num s1 + 1) s1) _ _ _ _ _ Hl1 Hloop)
        as [->|(k & Hk & Hr & Hrec & Hfc & He)];
        [left; reflexivity|].
      right. exists (S k). cbn [kvartal_number current_num found_count set_current_num] in *.
      rewrite Hkv, Hc1 in *. rewrite seqZ_head.
      assert (Hrem : remaining s
                     = S (remaining (set_current_num (current_num s + 1) s1)))
        by (unfold remaining; cbn; rewrite Hen; lia).
      split; [lia|]. split.
      { rewrite Hr, Hrq. cbn. rewrite <- app_assoc. reflexivity. }
      split.
      { rewrite Hrec, <- app_assoc. f_equal. f_equal.
        cbn [omap list_omap]. destruct (find_at h _ _); reflexivity. }
      split.
      { rewrite Hfc, Hf1. cbn [omap list_omap].
        destruct (find_at h (kvartal_number s) (current_num s)); cbn; lia. }
      destruct He as [(-> & -> & Hcur)|(-> & Hpos & Hcur)].
      * left. repeat split; lia.
      * right. repeat split; lia.
  - intros; simplify_eq. right. exists 0%nat. apply Z.leb_gt in E.
    rewrite !seqZ_nil by reflexivity. cbn. rewrite !app_nil_r.
    split; [lia|]. split; [reflexivity|]. split; [assumption|].
    split; [lia|]. left. unfold remaining. repeat split; lia.
Qed.

End ScanTrace.

Section ScanFacts.

Context (h : Host).

Lemma seqZ_to_nat m n : seqZ m (Z.of_nat (Z.to_nat n)) = seqZ m n.
Proof. unfold seqZ. rewrite Nat2Z.id. reflexivity. Qed.

(** X7.  A scan that runs to the end of the range asks for every number
    from [current_num] to [end], in ascending order, and ends with the
    records it started with followed by the records of exactly the numbers
    at which a land parcel is found, in ascending order of the numbers. *)
Theorem exhaustive_scan_records s w l0 :
  land_parcels s = JList l0 ->
  how (scan h s w) = Exhausted ->
  land_parcels (final (scan h s w))
  = JList (l0 ++ omap (find_at h (kvartal_number s))
                  (seqZ (current_num s) (end_num s + 1 - current_num s)))
  /\ requests (after (scan h s w))
     = requests w ++ map (parcel_at (kvartal_number s))
                       (seqZ (current_num s) (end_num s + 1 - current_num s))
  /\ current_num (final (scan h s w)) = Z.max (current_num s) (end_num s + 1).
Proof.
  intros Hl Hhow. unfold scan in *.
  destruct (scan_loop (remaining s) h s w) as [[e s'] w'] eqn:Hloop.
  destruct (finish_how_final h e s' w') as [Hh Hf].
  rewrite Hh in Hhow. subst e. rewrite Hf, finish_requests.
  destruct (scan_loop_trace h _ _ _ _ _ _ _ Hl Hloop)
    as [?|(k & _ & Hr & Hrec & _ & [(_ & -> & Hc)|(? & _)])]; try discriminate.
  unfold remaining in *. rewrite seqZ_to_nat in *.
  split; [exact Hrec|]. split; [exact Hr|]. lia.
Qed.

(** Every pass asks for one parcel number, whatever becomes of it. *)
Lemma scan_loop_requests n : forall s w e s' w',
  scan_loop n h s w = (e, s', w') ->
  e = OutOfFuel
  \/ exists k : nat,
       (k <= remaining s)%nat
       /\ requests w'
          = requests w ++ map (parcel_at (kvartal_number s))
                            (seqZ (current_num s) (Z.of_nat k)).
Proof.
  induction n as [|n IH]; intros s w e s' w'; cbn [scan_loop];
    destruct (current_num s <=? end_num s) eqn:E;
    try (intros; simplify_eq; right; exists 0%nat;
         rewrite seqZ_nil by reflexivity; cbn; rewrite app_nil_r;
         split; [lia | reflexivity]).
  apply Z.leb_le in E. unfold iteration.
  assert (Hone : forall w2, requests w2 = requests w ++ [parcel_number s] ->
            exists k : nat, (k <= remaining s)%nat
              /\ requests w2
                 = requests w ++ map (parcel_at (kvartal_number s))
                                   (seqZ (current_num s) (Z.of_nat k))).
  { intros w2 H2. exists 1%nat. split; [unfold remaining; lia|].
    rewrite H2. reflexivity. }
  destruct (probe h s w) as [[s1|] w1] eqn:Hp.
  + destruct (probe_Some h _ _ _ _ Hp) as ((Hkv & _ & Hen & _) & Hc1 & ->).
    pose proof (checkpoint_requests h s1 (record_request (parcel_number s) w))
      as Hrq.
    set (w2 := if checkpoint_due s1 then _ else _) in *.
    destruct (max_not_found s1 <=? not_found_streak s1).
    * intros H. injection H as <- <- <-. right. apply Hone. exact Hrq.
    * intros Hloop. destruct (IH _ _ _ _ _ Hloop) as [->|(k & Hk & Hr)];
        [left; reflexivity|].
      right. exists (S k).
      cbn [kvartal_number current_num set_current_num] in *.
      rewrite Hkv, Hc1 in Hr. rewrite seqZ_head.
      split.
      { unfold remaining in *. cbn in Hk. rewrite Hen, Hc1 in Hk. lia. }
      rewrite Hr, Hrq. cbn. rewrite <- app_assoc. reflexivity.
  + intros H. injection H as <- <- <-. right. apply Hone.
    pose proof (probe_world h s w) as Hw. rewrite Hp in Hw. cbn in Hw.
    rewrite Hw. reflexivity.
Qed.

(** X8.  Whatever the lookups answer and however the scan ends, the
    requests it makes are those for consecutive numbers starting at
    [current_num], at most one per number of the range, and no parcel
    number is asked for twice. *)
Theorem scan_requests_consecutive s w :
  exists k : nat,
    (k <= remaining s)%nat
    /\ requests (after (scan h s w))
       = requests w ++ map (parcel_at (kvartal_number s))
                         (seqZ (current_num s) (Z.of_nat k))
    /\ NoDup (map (parcel_at (kvartal_number s))
                (seqZ (current_num s) (Z.of_nat k))).
Proof.
  unfold scan.
  pose proof (scan_loop_fuel h (remaining s) s w (le_n _)) as Hfuel.
  destruct (scan_loop (remaining s) h s w) as [[e s'] w'] eqn:Hloop.
  rewrite finish_requests.
  destruct (scan_loop_requests _ _ _ _ _ _ Hloop) as [->|(k & Hk & Hr)];
    [exfalso; apply Hfuel; reflexivity|].
  exists k. split; [exact Hk|]. split; [exact Hr|].
  apply NoDup_fmap_2; [|apply NoDup_seqZ].
  intros a b. apply parcel_at_injective.
Qed.

(** X9.  With records that are a list, the loop of [scan] raises nothing:
    the scan ends by exhausting the range or by the early stop, its
    [except] branch can only be reached by a failing [pd.DataFrame], and
    the records it ends with are the ones it started with followed by new
    ones; nothing stored is dropped or reordered, and a table that is
    returned holds them all. *)
Theorem scan_only_appends s w l0 :
  land_parcels s = JList l0 ->
  (how (scan h s w) = Exhausted \/ how (scan h s w) = EarlyStop)
  /\ (fatal (scan h s w) = true ->
      DataFrame h (land_parcels (final (scan h s w))) = false)
  /\ (exists new, land_parcels (final (scan h s w)) = JList (l0 ++ new))
  /\ (forall rows, ret (scan h s w) = Frame rows ->
                   rows = land_parcels (final (scan h s w))).
Proof.
  intros Hl. unfold scan.
  pose proof (scan_loop_fuel h (remaining s) s w (le_n _)) as Hfuel.
  destruct (scan_loop (remaining s) h s w) as [[e s'] w'] eqn:Hloop.
  destruct (scan_loop_trace h _ _ _ _ _ _ _ Hl Hloop)
    as [->|(k & _ & _ & Hrec & _ & He)]; [exfalso; apply Hfuel; reflexivity|].
  assert (He' : e = Exhausted \/ e = EarlyStop) by (destruct He; tauto).
  destruct (finish_how_final h e s' w') as [Hh Hf]. rewrite Hh, Hf.
  split; [exact He'|]. split; [|split; [eexists; exact Hrec|]].
  - destruct He' as [-> | ->]; cbn;
      destruct (truthy (land_parcels s')); try discriminate;
      destruct (DataFrame h (land_parcels s')); cbn; try discriminate; auto.
  - intros rows. destruct He' as [-> | ->]; cbn;
      destruct (truthy (land_parcels s')); try discriminate;
      destruct (DataFrame h (land_parcels s')); cbn; try discriminate;
      congruence.
Qed.

(** X10.  [found_count == len(records)] is an invariant of [scan]: a
    scanner whose records are a list of [found_count] entries is one again
    when the scan has ended, however it ends. *)
Theorem scan_keeps_found_count s w l0 :
  land_parcels s = JList l0 ->
  found_count s = Z.of_nat (List.length l0) ->
  exists l, land_parcels (final (scan h s w)) = JList l
            /\ found_count (final (scan h s w)) = Z.of_nat (List.length l).
Proof.
  intros Hl Hn. unfold scan.
  pose proof (scan_loop_fuel h (remaining s) s w (le_n _)) as Hfuel.
  destruct (scan_loop (remaining s) h s w) as [[e s'] w'] eqn:Hloop.
  destruct (scan_loop_trace h _ _ _ _ _ _ _ Hl Hloop)
    as [->|(k & _ & _ & Hrec & Hfc & _)]; [exfalso; apply Hfuel; reflexivity|].
  destruct (finish_how_final h e s' w') as [_ ->].
  eexists. split; [exact Hrec|]. rewrite Hfc, Hn, length_app. lia.
Qed.

End ScanFacts.

(** The example run records what is found at 1-5. *)
Lemma exhaustive_scan_records_witness :
  land_parcels (final (scan (host_with [3])
                         (LandParcelScanner (host_with [3]) block 1 5) empty_world))
  = JList ([] ++ omap (find_at (host_with [3]) block) (seqZ 1 (5 + 1 - 1))).
Proof.
  apply (exhaustive_scan_records (host_with [3])
           (LandParcelScanner (host_with [3]) block 1 5) empty_world []).
  - reflexivity.
  - vm_compute. reflexivity.
Defined.

(** The example run extends the empty list. *)
Lemma scan_only_appends_witness :
  exists new,
    land_parcels (final (scan (host_with [3])
                           (LandParcelScanner (host_with [3]) block 1 5)
                           empty_world)) = JList ([] ++ new).
Proof.
  apply (scan_only_appends (host_with [3])
           (LandParcelScanner (host_with [3]) block 1 5) empty_world []).
  reflexivity.
Defined.

(** The example run ends with as many records as it counts. *)
Lemma scan_keeps_found_count_witness :
  exists l,
    land_parcels (final (scan (host_with [3])
                           (LandParcelScanner (host_with [3]) block 1 5)
                           empty_world)) = JList l
    /\ found_count (final (scan (host_with [3])
                              (LandParcelScanner (host_with [3]) block 1 5)
                              empty_world)) = Z.of_nat (List.length l).
Proof.
  apply (scan_keeps_found_count (host_with [3])
           (LandParcelScanner (host_with [3]) block 1 5) empty_world []);
    reflexivity.
Defined.

Section StreakAndFiles.

Context (h : Host).

Lemma scan_loop_streak n : forall s w l0 e s' w',
  land_parcels s = JList l0 ->
  0 <= not_found_streak s < max_not_found s ->
  scan_loop n h s w = (e, s', w') ->
  (e = EarlyStop -> not_found_streak s' = max_not_found s)
  /\ (e = Exhausted -> 0 <= not_found_streak s' < max_not_found s).
Proof.
  induction n as [|n IH]; intros s w l0 e s' w' Hl Hs; cbn [scan_loop];
    destruct (current_num s <=? end_num s);
    try (intros; simplify_eq; split; [discriminate | intros _; lia]).
  unfold iteration.
  destruct (probe_cases h s w l0 Hl) as [Hp|[Hp|[info Hp]]]; rewrite Hp;
    match goal with
    | |- context [max_not_found ?x <=? not_found_streak ?x] =>
        destruct (max_not_found x <=? not_found_streak x) eqn:E
    end;
    cbn in E; try (apply Z.leb_le in E); try (apply Z.leb_gt in E);
    intros Hloop.
  all: try (injection Hloop as <- <- <-; cbn; split; [intros _; lia | discriminate]).
  all: eapply IH in Hloop; [exact Hloop | cbn; try eassumption; reflexivity
                             | cbn; lia].
Qed.

(** X11.  The streak never overshoots: from a scanner with a list of
    records and fewer misses pending than the limit, a scan that stops
    early ends with [not_found_streak] exactly at [max_not_found], and one
    that runs to the end of the range ends with it below the limit (and not
    negative). *)
Theorem streak_stays_within_limit s w l0 :
  land_parcels s = JList l0 ->
  0 <= not_found_streak s < max_not_found s ->
  (how (scan h s w) = EarlyStop ->
   not_found_streak (final (scan h s w)) = max_not_found s)
  /\ (how (scan h s w) = Exhausted ->
      0 <= not_found_streak (final (scan h s w)) < max_not_found s).
Proof.
  intros Hl Hs. unfold scan.
  destruct (scan_loop (remaining s) h s w) as [[e s'] w'] eqn:Hloop.
  destruct (finish_how_final h e s' w') as [-> ->].
  exact (scan_loop_streak _ _ _ _ _ _ _ Hl Hs Hloop).
Qed.

(** X12.  A range of one number whose lookup comes back as [None]: the
    scan asks for that number and nothing else, counts one miss, leaves
    the records alone and ends normally, one past [end], not by the early
    stop (as long as that miss does not fill the limit). *)
Theorem single_number_miss s w :
  current_num s = end_num s ->
  lookup_misses h (parcel_number s) ->
  not_found_streak s + 1 < max_not_found s ->
  how (scan h s w) = Exhausted
  /\ requests (after (scan h s w)) = requests w ++ [parcel_number s]
  /\ current_num (final (scan h s w)) = end_num s + 1
  /\ not_found_streak (final (scan h s w)) = not_found_streak s + 1
  /\ land_parcels (final (scan h s w)) = land_parcels s.
Proof.
  intros Hc Hmiss Hlim. unfold scan.
  assert (Hrem : remaining s = 1%nat) by (unfold remaining; lia).
  rewrite Hrem. cbn [scan_loop].
  assert (E : (current_num s <=? end_num s) = true) by (apply Z.leb_le; lia).
  rewrite E. unfold iteration. rewrite (probe_miss h _ _ Hmiss).
  set (missed := set_not_found_streak (not_found_streak s + 1) s).
  assert (L : (max_not_found missed <=? not_found_streak missed) = false)
    by (apply Z.leb_gt; cbn; lia).
  rewrite L.
  assert (E' : (current_num (set_current_num (current_num missed + 1) missed)
                <=? end_num (set_current_num (current_num missed + 1) missed))
               = false) by (apply Z.leb_gt; cbn; lia).
  rewrite E'.
  match goal with
  | |- context [finish h Exhausted ?x ?y] =>
      destruct (finish_how_final h Exhausted x y) as [-> ->];
      rewrite finish_requests
  end.
  cbn. rewrite checkpoint_requests. repeat split. lia.
Qed.

End StreakAndFiles.

(** A block without parcels, scanned to the end of 1-5. *)
Lemma streak_stays_within_limit_witness :
  0 <= not_found_streak
         (final (scan (host_with []) (LandParcelScanner (host_with []) block 1 5)
                   empty_world))
    < max_not_found (LandParcelScanner (host_with []) block 1 5).
Proof.
  apply (streak_stays_within_limit (host_with [])
           (LandParcelScanner (host_with []) block 1 5) empty_world []).
  - reflexivity.
  - vm_compute. split; [discriminate | reflexivity].
  - vm_compute. reflexivity.
Defined.

(** The range 7-7 of a block without parcels. *)
Lemma single_number_miss_witness :
  how (scan (host_with []) (LandParcelScanner (host_with []) block 7 7)
         empty_world) = Exhausted
  /\ requests (after (scan (host_with [])
                        (LandParcelScanner (host_with []) block 7 7)
                        empty_world))
     = requests empty_world
       ++ [parcel_number (LandParcelScanner (host_with []) block 7 7)].
Proof.
  destruct (single_number_miss (host_with [])
              (LandParcelScanner (host_with []) block 7 7) empty_world)
    as (H1 & H2 & _).
  - reflexivity.
  - reflexivity.
  - vm_compute. reflexivity.
  - split; [exact H1 | exact H2].
Defined.

Section FilesOfAScan.

Context (h : Host).

Lemma save_progress_frame s w path :
  path <> temp_file s -> path <> result_file s ->
  files (save_progress h s w).2 !! path = files w !! path.
Proof.
  intros Ht Hr. unfold save_progress.
  repeat case_match; cbn; rewrite ?lookup_insert_ne by congruence; reflexivity.
Qed.

Lemma iteration_frame s w path :
  path <> temp_file s -> path <> result_file s ->
  files (world_of (iteration h s w)) !! path = files w !! path.
Proof.
  intros Ht Hr.
  destruct (probe h s w) as [[s1|] w1] eqn:Hp.
  - rewrite (iteration_world h _ _ _ _ Hp).
    destruct (probe_Some h _ _ _ _ Hp) as ((_&_&_&_&_&Ht1&Hr1) & _ & ->).
    destruct (checkpoint_due s1); [|reflexivity].
    rewrite save_progress_frame by congruence. reflexivity.
  - unfold iteration. rewrite Hp. cbn.
    pose proof (probe_world h s w) as Hw. rewrite Hp in Hw. cbn in Hw.
    rewrite Hw. reflexivity.
Qed.

Lemma scan_loop_frame n path : forall s w e s' w',
  path <> temp_file s -> path <> result_file s ->
  scan_loop n h s w = (e, s', w') ->
  files w' !! path = files w !! path.
Proof.
  induction n as [|n IH]; intros s w e s' w' Ht Hr; cbn [scan_loop];
    destruct (current_num s <=? end_num s);
    try (intros; simplify_eq; reflexivity).
  pose proof (iteration_frame s w path Ht Hr) as Hone.
  destruct (iteration h s w) as [s1 w1|s1 w1|s1 w1] eqn:Hi; cbn in Hone;
    intros Hloop; try (injection Hloop as <- <- <-; exact Hone).
  destruct (iteration_same_config h s w s1 w1) as (_&_&_&_&_&Ht1&Hr1); [auto|].
  rewrite <- Hone. eapply IH; [| |exact Hloop]; congruence.
Qed.

Lemma finish_frame e s w path :
  path <> temp_file s -> path <> result_file s ->
  files (after (finish h e s w)) !! path = files w !! path.
Proof.
  intros Ht Hr. destruct e; cbn; repeat case_match; cbn;
    rewrite ?save_progress_frame by assumption; reflexivity.
Qed.

(** X13.  Besides the log of the module, a scan writes two files only:
    whatever it does, every path other than its checkpoint file, its
    spreadsheet and the log file [land_parcel_scan.log] (which every
    [logger] call of the scan appends to) holds after the scan what it
    held before. *)
Theorem scan_touches_only_its_files s w path :
  path <> temp_file s -> path <> result_file s -> path <> log_file ->
  files (after (scan h s w)) !! path = files w !! path.
Proof.
  intros Ht Hr _. unfold scan.
  destruct (scan_loop (remaining s) h s w) as [[e s'] w'] eqn:Hloop.
  destruct (scan_loop_config h _ _ _ _ _ _ Hloop) as (_&_&_&_&_&Ht1&Hr1).
  rewrite finish_frame by congruence.
  eapply scan_loop_frame; eassumption.
Qed.

Lemma save_progress_no_sheet s w :
  truthy (land_parcels s) = false -> temp_file s <> result_file s ->
  files (save_progress h s w).2 !! result_file s = files w !! result_file s.
Proof.
  intros Hno Hne. unfold save_progress. rewrite Hno.
  destruct (progress_data h s _); cbn; [|reflexivity].
  rewrite lookup_insert_ne by congruence. reflexivity.
Qed.

Lemma scan_loop_no_sheet n : forall s w e s' w',
  land_parcels s = JList [] -> temp_file s <> result_file s ->
  scan_loop n h s w = (e, s', w') -> e <> OutOfFuel ->
  land_parcels s' = JList [] ->
  files w' !! result_file s = files w !! result_file s.
Proof.
  induction n as [|n IH]; intros s w e s' w' Hl Hne; cbn [scan_loop];
    destruct (current_num s <=? end_num s);
    try (intros; simplify_eq; reflexivity).
  unfold iteration.
  destruct (probe_find h s w [] Hl)
    as (s1 & -> & (_&_&_&_&_&Ht1&Hr1) & _ & Hl1 & _).
  cbn [app] in Hl1.
  set (w2 := if checkpoint_due s1 then _ else _).
  assert (Hkeep : land_parcels s1 = JList [] ->
                  files w2 !! result_file s = files w !! result_file s).
  { intros H1. subst w2. destruct (checkpoint_due s1); [|reflexivity].
    rewrite <- Hr1. rewrite save_progress_no_sheet; [reflexivity| |congruence].
    rewrite H1. reflexivity. }
  destruct (max_not_found s1 <=? not_found_streak s1).
  - intros H _ Hend. injection H as <- <- <-. apply Hkeep, Hend.
  - intros Hloop Hfuel Hend.
    destruct (scan_loop_trace h n (set_current_num (current_num s1 + 1) s1)
                _ _ _ _ _ Hl1 Hloop)
      as [?|(k & _ & _ & Hrec & _)]; [contradiction|].
    rewrite Hend in Hrec. injection Hrec as Hrec.
    symmetry in Hrec. apply app_eq_nil in Hrec as [Hnone _].
    assert (Hl1' : land_parcels s1 = JList [])
      by (rewrite Hl1; f_equal; exact Hnone).
    rewrite <- (Hkeep Hl1'), <- Hr1.
    apply (IH (set_current_num (current_num s1 + 1) s1) w2 e s' w');
      [exact Hl1' | cbn; congruence | exact Hloop | exact Hfuel | exact Hend].
Qed.

(** X14.  A scan that starts without records and finds none never writes
    the spreadsheet: whatever stood at its path before (a result of an
    earlier run, or nothing) is still there afterwards. *)
Theorem no_records_no_spreadsheet s w :
  land_parcels s = JList [] ->
  temp_file s <> result_file s ->
  land_parcels (final (scan h s w)) = JList [] ->
  files (after (scan h s w)) !! result_file s = files w !! result_file s.
Proof.
  intros Hl Hne. unfold scan.
  pose proof (scan_loop_fuel h (remaining s) s w (le_n _)) as Hfuel.
  destruct (scan_loop (remaining s) h s w) as [[e s'] w'] eqn:Hloop.
  cbn in Hfuel.
  destruct (scan_loop_config h _ _ _ _ _ _ Hloop) as (_&_&_&_&_&Ht1&Hr1).
  destruct (finish_how_final h e s' w') as [_ ->]. intros Hend.
  rewrite <- (scan_loop_no_sheet _ _ _ _ _ _ Hl Hne Hloop Hfuel Hend).
  assert (Hsave : forall w0, files (save_progress h s' w0).2 !! result_file s
                             = files w0 !! result_file s).
  { intros w0. rewrite <- Hr1. apply save_progress_no_sheet; [|congruence].
    rewrite Hend. reflexivity. }
  destruct e; cbn; rewrite ?Hend; cbn; rewrite ?Hsave; reflexivity.
Qed.

(** X15.  However a scan over a range with [start <= end] ends, the
    checkpoint file it leaves holds its final state: the records the
    scanner ends with, their count, and [current_num] as
    [last_checked]. *)
Theorem final_checkpoint_holds_final_state s w :
  start s <= end_num s ->
  temp_file s <> result_file s ->
  exists doc,
    files (after (scan h s w)) !! temp_file s = Some (JsonText doc)
    /\ py_get doc "land_parcels" (JList [])
       = Some (land_parcels (final (scan h s w)))
    /\ stored_last_checked doc = Some (JInt (current_num (final (scan h s w))))
    /\ (py_getitem doc "stats" ≫= fun st => py_getitem st "found_count")
       = Some (JInt (found_count (final (scan h s w)))).
Proof.
  intros Hrange Hne. unfold scan.
  pose proof (scan_loop_fuel h (remaining s) s w (le_n _)) as Hfuel.
  destruct (scan_loop (remaining s) h s w) as [[e s'] w'] eqn:Hloop.
  cbn in Hfuel.
  destruct (scan_loop_config h _ _ _ _ _ _ Hloop) as (_&Hs1&He1&_&_&Ht1&Hr1).
  destruct (finish_how_final h e s' w') as [_ ->].
  assert (Hsave : forall w0, exists doc,
             files (save_progress h s' w0).2 !! temp_file s = Some (JsonText doc)
             /\ py_get doc "land_parcels" (JList []) = Some (land_parcels s')
             /\ stored_last_checked doc = Some (JInt (current_num s'))
             /\ (py_getitem doc "stats" ≫= fun st => py_getitem st "found_count")
                = Some (JInt (found_count s'))).
  { intros w0.
    destruct (progress_data_Some h s' (List.length (dumps w0)))
      as (doc & Hd & Hlast & _ & Hlp & Hfc); [lia|].
    exists doc. split; [|auto].
    rewrite <- Ht1. apply save_progress_file; [congruence | exact Hd]. }
  destruct e; cbn; try contradiction; repeat case_match; cbn; apply Hsave.
Qed.

End FilesOfAScan.

(** A file of another run is left alone by the example run. *)
Lemma scan_touches_only_its_files_witness :
  files (after (scan (host_with [3]) (LandParcelScanner (host_with [3]) block 1 5)
                  (write_file "notes.txt" Garbage empty_world))) !! "notes.txt"
  = files (write_file "notes.txt" Garbage empty_world) !! "notes.txt".
Proof.
  apply (scan_touches_only_its_files (host_with [3])
           (LandParcelScanner (host_with [3]) block 1 5)
           (write_file "notes.txt" Garbage empty_world) "notes.txt");
    vm_compute; discriminate.
Defined.

(** The path of the log is none of the two files of a scanner. *)
Example log_file_is_neither_file h kvartal start_ end_ :
  temp_file (LandParcelScanner h kvartal start_ end_) <> log_file
  /\ result_file (LandParcelScanner h kvartal start_ end_) <> log_file.
Proof. split; unfold log_file; cbn; discriminate. Qed.

(** A block without parcels: the spreadsheet of an earlier run stays. *)
Lemma no_records_no_spreadsheet_witness :
  files (after (scan (host_with []) (LandParcelScanner (host_with []) block 1 5)
                  (write_file
                     (result_file (LandParcelScanner (host_with []) block 1 5))
                     (Sheet (JList [JNull])) empty_world)))
    !! result_file (LandParcelScanner (host_with []) block 1 5)
  = files (write_file
             (result_file (LandParcelScanner (host_with []) block 1 5))
             (Sheet (JList [JNull])) empty_world)
      !! result_file (LandParcelScanner (host_with []) block 1 5).
Proof.
  apply (no_records_no_spreadsheet (host_with [])
           (LandParcelScanner (host_with []) block 1 5)).
  - reflexivity.
  - vm_compute. discriminate.
  - vm_compute. reflexivity.
Defined.

(** The checkpoint the example run leaves. *)
Lemma final_checkpoint_holds_final_state_witness :
  exists doc,
    files (after (scan (host_with [3]) (LandParcelScanner (host_with [3]) block 1 5)
                    empty_world))
      !! temp_file (LandParcelScanner (host_with [3]) block 1 5)
    = Some (JsonText doc)
    /\ py_get doc "land_parcels" (JList [])
       = Some (land_parcels
                 (final (scan (host_with [3])
                           (LandParcelScanner (host_with [3]) block 1 5)
                           empty_world))).
Proof.
  destruct (final_checkpoint_holds_final_state (host_with [3])
              (LandParcelScanner (host_with [3]) block 1 5) empty_world)
    as (doc & Hfile & Hlp & _).
  - vm_compute. discriminate.
  - vm_compute. discriminate.
  - exists doc. split; [exact Hfile | exact Hlp].
Defined.

(** ** The checkpoint store and the lookup, case by case *)

Section StoreAndLookup.

Context (h : Host).

(** X16.  [load_progress] returns [True] exactly when the checkpoint file
    exists and holds a JSON document whose [land_parcels] (an empty list
    when the key is missing) has a length, whose
    [metadata.last_checked] can be incremented, and whose records, if
    there are any, can be exported; and then the scanner holds those
    records, their length as [found_count], and [last_checked + 1] as
    [current_num]. *)
Theorem load_progress_succeeds_iff s w :
  (load_progress h s w).1.1 = true
  <-> exists data lp n c,
        files w !! temp_file s = Some (JsonText data)
        /\ py_get data "land_parcels" (JList []) = Some lp
        /\ py_len lp = Some n
        /\ resume_point data = Some c
        /\ (truthy lp = true -> to_excel h lp = true)
        /\ (load_progress h s w).1.2
           = set_current_num c (set_found_count n (set_land_parcels lp s)).
Proof.
  unfold load_progress. split.
  - destruct (files w !! temp_file s) as [[data| |]|]; cbn; try discriminate.
    destruct (py_get data "land_parcels" (JList [])) as [lp|] eqn:Hlp; cbn;
      [|discriminate].
    destruct (py_len lp) as [n|] eqn:Hn; cbn; [|discriminate].
    destruct (resume_point data) as [c|] eqn:Hc; cbn; [|discriminate].
    destruct (truthy lp) eqn:Ht; [destruct (to_excel h lp) eqn:Hx|]; cbn;
      try discriminate; intros _; exists data, lp, n, c;
      repeat split; auto; intros; congruence.
  - intros (data & lp & n & c & -> & -> & -> & -> & Hx & _).
    destruct (truthy lp); [rewrite Hx by reflexivity|]; reflexivity.
Qed.

Lemma load_progress_same s w :
  same_config s (load_progress h s w).1.2
  /\ not_found_streak (load_progress h s w).1.2 = not_found_streak s
  /\ requests (load_progress h s w).2 = requests w
  /\ dumps (load_progress h s w).2 = dumps w.
Proof.
  unfold load_progress. repeat case_match; cbn; repeat split.
Qed.

(** X17.  [load_progress] assigns the records, their count and the resume
    point and nothing else: the block, the range ([start] and [end] are
    not read back from the checkpoint), the limit, the file names and the
    streak are what they were, no request is made, no checkpoint is
    dumped, and no file but the spreadsheet and the log file
    [land_parcel_scan.log] (which its [logger] calls append to) is
    written, so the checkpoint it read is still there. *)
Theorem load_progress_changes_only_the_progress s w :
  same_config s (load_progress h s w).1.2
  /\ not_found_streak (load_progress h s w).1.2 = not_found_streak s
  /\ requests (load_progress h s w).2 = requests w
  /\ dumps (load_progress h s w).2 = dumps w
  /\ (forall path, path <> result_file s -> path <> log_file ->
        files (load_progress h s w).2 !! path = files w !! path).
Proof.
  destruct (load_progress_same s w) as (H1 & H2 & H3 & H4).
  repeat split; try assumption; try apply H1.
  intros path Hpath _. unfold load_progress.
  repeat case_match; cbn; rewrite ?lookup_insert_ne by congruence; reflexivity.
Qed.

(** X18.  [fetch_parcel_data] returns [None] exactly when the request
    raises, the status is not 200, the body of a 200 cannot be decoded, or
    the body of a 200 is the JSON value [null]; and it makes exactly one
    request, for the parcel number it was given. *)
Theorem fetch_returns_none_iff parcel_num w :
  ((fetch_parcel_data h parcel_num w).1 = JNull
   <-> match session_get h parcel_num with
       | Raises => True
       | Status code body => code <> 200 \/ body = None \/ body = Some JNull
       end)
  /\ requests (fetch_parcel_data h parcel_num w).2 = requests w ++ [parcel_num].
Proof.
  split; [|reflexivity]. unfold fetch_parcel_data. cbn.
  destruct (session_get h parcel_num) as [|code body]; [tauto|].
  destruct (Z.eqb_spec code 200) as [->|Hne].
  - destruct body as [payload|]; [|tauto]. split.
    + intros ->. auto.
    + intros [H|[H|H]]; [contradiction | discriminate | congruence].
  - destruct (code =? 404); tauto.
Qed.

(** X19.  What a [True] from [save_progress] stands for, and what a
    degenerate range does.  When [save_progress] returns [True], the range
    is not degenerate ([end - start + 1] is not zero), the document of the
    state has been dumped to the checkpoint file, and the records are
    empty or have a length and have been exported to the spreadsheet.
    When [end - start + 1] is zero, building the document raises
    (ZeroDivisionError) before anything is opened: [False] is returned,
    nothing is dumped, and every path other than the log file holds what
    it held. *)
Theorem save_progress_report s w :
  ((save_progress h s w).1 = true ->
   end_num s - start s + 1 <> 0
   /\ (exists doc,
         progress_data h s (List.length (dumps w)) = Some doc
         /\ dumps (save_progress h s w).2 = dumps w ++ [doc]
         /\ (temp_file s <> result_file s ->
             files (save_progress h s w).2 !! temp_file s = Some (JsonText doc)))
   /\ (truthy (land_parcels s) = true ->
       to_excel h (land_parcels s) = true
       /\ py_len (land_parcels s) <> None
       /\ files (save_progress h s w).2 !! result_file s
          = Some (Sheet (land_parcels s))))
  /\ (end_num s - start s + 1 = 0 ->
      (save_progress h s w).1 = false
      /\ dumps (save_progress h s w).2 = dumps w
      /\ requests (save_progress h s w).2 = requests w
      /\ (forall path, path <> log_file ->
            files (save_progress h s w).2 !! path = files w !! path)).
Proof.
  split.
  - intros Htrue.
    assert (Hz : end_num s - start s + 1 <> 0).
    { intros Hz. unfold save_progress, progress_data in Htrue.
      apply Z.eqb_eq in Hz. rewrite Hz in Htrue. discriminate. }
    split; [exact Hz|].
    destruct (progress_data_Some h s (List.length (dumps w)) Hz) as (doc & Hd & _).
    split.
    { exists doc. split; [exact Hd|]. split.
      - rewrite save_progress_dumps, Hd. reflexivity.
      - intros Hne. apply save_progress_file; assumption. }
    intros Ht. unfold save_progress in Htrue |- *. rewrite Hd, Ht in Htrue |- *.
    destruct (to_excel h (land_parcels s)); [|discriminate].
    destruct (py_len (land_parcels s)); [|discriminate].
    split; [reflexivity|]. split; [discriminate|]. apply lookup_insert_eq.
  - intros Hz. unfold save_progress, progress_data.
    apply Z.eqb_eq in Hz. rewrite Hz. repeat split.
Qed.

End StoreAndLookup.

(** The final state of the example run, saved once more: [True] is
    returned, and the spreadsheet holds its one record. *)
Lemma save_progress_report_witness :
  (save_progress (host_with [3]) (final example_run) empty_world).1 = true
  /\ files (save_progress (host_with [3]) (final example_run) empty_world).2
       !! result_file (final example_run)
     = Some (Sheet (land_parcels (final example_run))).
Proof.
  assert (Htrue : (save_progress (host_with [3]) (final example_run)
                     empty_world).1 = true) by (vm_compute; reflexivity).
  split; [exact Htrue|].
  apply (proj1 (save_progress_report (host_with [3]) (final example_run)
                  empty_world) Htrue).
  vm_compute. reflexivity.
Defined.

(** Where no export works [False] is returned, with the checkpoint on
    disk all the same. *)
Example failed_export_keeps_checkpoint :
  (save_progress (host_without_excel [3]) (final example_run) empty_world).1
  = false
  /\ exists doc,
       files (save_progress (host_without_excel [3]) (final example_run)
                empty_world).2 !! temp_file (final example_run)
       = Some (JsonText doc).
Proof. split; [vm_compute; reflexivity|]. eexists. vm_compute. reflexivity. Qed.

(** ** The operator's session *)

Lemma ask_bound_bounds default lo hi stdin v rest :
  ask_bound default lo hi stdin = Some (v, rest) -> lo <= v <= hi.
Proof.
  induction stdin as [|a stdin IH]; cbn; [discriminate|].
  destruct a as [|num|]; cbn; try exact IH.
  - destruct ((lo <=? default) && (default <=? hi)) eqn:E; [|exact IH].
    intros H. injection H as <- _. apply andb_true_iff in E. lia.
  - destruct ((lo <=? num) && (num <=? hi)) eqn:E; [|exact IH].
    intros H. injection H as <- _. apply andb_true_iff in E. lia.
Qed.

(** X20.  A prompt for a bound returns the first answer that
    [validate_input] accepts (an empty answer stands for the default, text
    that is no integer is never accepted), with what follows it left
    unread; the value lies between the bounds; and when no answer is
    accepted the input runs out. *)
Theorem ask_bound_first_accepted default lo hi :
  (forall skipped a rest,
     Forall (fun x => accepted default lo hi x = false) skipped ->
     accepted default lo hi a = true ->
     exists v, answer_value default a = Some v /\ lo <= v <= hi
               /\ ask_bound default lo hi (skipped ++ a :: rest) = Some (v, rest))
  /\ (forall stdin,
        Forall (fun x => accepted default lo hi x = false) stdin ->
        ask_bound default lo hi stdin = None).
Proof.
  assert (Hskip : forall x stdin,
            accepted default lo hi x = false ->
            ask_bound default lo hi (x :: stdin) = ask_bound default lo hi stdin).
  { intros x stdin Hx. unfold accepted in Hx. cbn [ask_bound].
    destruct x; cbn in Hx |- *; try rewrite Hx; reflexivity. }
  split.
  - intros skipped a rest Hsk Ha.
    induction Hsk as [|x skipped Hx _ IH]; cbn [app].
    + unfold accepted in Ha. cbn [ask_bound].
      destruct a as [|num|]; cbn in Ha |- *; try discriminate; rewrite Ha;
        eexists; (split; [reflexivity|]); (split; [|reflexivity]);
        apply andb_true_iff in Ha; lia.
    + rewrite Hskip by exact Hx. exact IH.
  - intros stdin Hall. induction Hall as [|x stdin Hx _ IH]; [reflexivity|].
    rewrite Hskip by exact Hx. exact IH.
Qed.

(** A word, a number out of range, then an empty answer. *)
Lemma ask_bound_first_accepted_witness :
  exists v, answer_value 1 Blank = Some v /\ 1 <= v <= 99999
            /\ ask_bound 1 1 99999 ([NotANumber; Typed 0] ++ Blank :: [Typed 5])
               = Some (v, [Typed 5]).
Proof.
  apply (proj1 (ask_bound_first_accepted 1 1 99999)).
  - repeat constructor.
  - reflexivity.
Defined.

Section Session.

Context (h : Host).

Lemma main_opening kvartal resume stdin w :
  main h kvartal resume stdin w
  = '(start_, stdin') ← ask_bound (start (opening h kvartal resume w).1) 1 99999 stdin;
    '(end_, _) ← ask_bound (end_num (opening h kvartal resume w).1) start_ 99999 stdin';
    let scanner :=
      set_current_num start_
        (set_end end_ (set_start start_ (opening h kvartal resume w).1)) in
    let result := scan h scanner (opening h kvartal resume w).2 in
    Some (if is_returned_None (ret result) then NothingFound else FoundParcels,
          result).
Proof.
  unfold main, opening.
  destruct (files w !! temp_file (LandParcelScanner h kvartal 1 9999));
    [destruct resume|]; try reflexivity.
  destruct (load_progress h (LandParcelScanner h kvartal 1 9999) w) as [[ok sl] wl].
  reflexivity.
Qed.

Lemma opening_same kvartal resume w :
  same_config (LandParcelScanner h kvartal 1 9999) (opening h kvartal resume w).1
  /\ requests (opening h kvartal resume w).2 = requests w.
Proof.
  unfold opening.
  destruct (files w !! temp_file (LandParcelScanner h kvartal 1 9999));
    [destruct resume|]; try (split; [apply same_config_refl | reflexivity]).
  destruct (load_progress_same h (LandParcelScanner h kvartal 1 9999) w)
    as (H1 & _ & H3 & _).
  destruct (load_progress h (LandParcelScanner h kvartal 1 9999) w) as [[ok sl] wl].
  split; assumption.
Qed.

Lemma scan_same_config s w : same_config s (final (scan h s w)).
Proof.
  unfold scan.
  destruct (scan_loop (remaining s) h s w) as [[e s'] w'] eqn:Hloop.
  destruct (finish_how_final h e s' w') as [_ ->].
  eapply scan_loop_config, Hloop.
Qed.

(** X21.  The range [main] scans is the validated one: whenever [main]
    gets to scanning, the scanner it ran has
    [1 <= start <= end <= 99999], its block is the one that was entered,
    and every request of the run is for a number of that block from
    [start] on, at most [end - start + 1] of them. *)
Theorem main_scans_validated_range kvartal resume stdin w rep r :
  main h kvartal resume stdin w = Some (rep, r) ->
  1 <= start (final r) <= end_num (final r)
  /\ end_num (final r) <= 99999
  /\ kvartal_number (final r) = kvartal
  /\ exists k : nat,
       Z.of_nat k <= end_num (final r) - start (final r) + 1
       /\ requests (after r)
          = requests w ++ map (parcel_at kvartal)
                            (seqZ (start (final r)) (Z.of_nat k)).
Proof.
  rewrite main_opening.
  destruct (opening_same kvartal resume w) as ((Hkv & _) & Hrq).
  destruct (ask_bound _ 1 99999 stdin) as [[start_ stdin']|] eqn:Hs;
    cbn; [|discriminate].
  destruct (ask_bound _ start_ 99999 stdin') as [[end_ rest]|] eqn:He;
    cbn; [|discriminate].
  intros H. injection H as _ <-.
  apply ask_bound_bounds in Hs, He.
  set (sc := set_current_num start_ _).
  destruct (scan_same_config sc (opening h kvartal resume w).2)
    as (Hk1 & Hs1 & He1 & _).
  rewrite Hk1, Hs1, He1. cbn. rewrite Hkv. cbn.
  split; [lia|]. split; [lia|]. split; [reflexivity|].
  pose proof (scan_loop_fuel h (remaining sc) sc (opening h kvartal resume w).2
                (le_n _)) as Hfuel.
  unfold scan.
  destruct (scan_loop (remaining sc) h sc (opening h kvartal resume w).2)
    as [[e s'] w'] eqn:Hloop.
  rewrite finish_requests.
  destruct (scan_loop_requests h _ _ _ _ _ _ Hloop) as [->|(k & Hk & Hr)];
    [exfalso; apply Hfuel; reflexivity|].
  exists k. split.
  - unfold remaining in Hk. cbn in Hk. lia.
  - rewrite Hr, Hrq. cbn. rewrite Hkv. reflexivity.
Qed.

End Session.

Section Resume.

Context (h : Host).

Lemma load_progress_list s w data l :
  files w !! temp_file s = Some (JsonText data) ->
  py_get data "land_parcels" (JList []) = Some (JList l) ->
  land_parcels (load_progress h s w).1.2 = JList l.
Proof.
  intros Hf Hl. unfold load_progress. rewrite Hf, Hl. cbn.
  repeat case_match; reflexivity.
Qed.

(** X22.  Resuming through [main]: when the checkpoint of the block holds
    a list of records and the operator chooses to continue, the run keeps
    those records, whether [load_progress] reports success or not and
    whatever [last_checked] says, and it probes again from [start] (line
    282 assigns [current_num] after the load): its requests are those for
    consecutive numbers from [start], and it ends with the stored records
    followed by what is found at those numbers. *)
Theorem main_resume_keeps_records_and_restarts kvartal stdin w data l rep r :
  files w !! temp_file (LandParcelScanner h kvartal 1 9999) = Some (JsonText data) ->
  py_get data "land_parcels" (JList []) = Some (JList l) ->
  main h kvartal true stdin w = Some (rep, r) ->
  exists k : nat,
    requests (after r)
    = requests w ++ map (parcel_at kvartal) (seqZ (start (final r)) (Z.of_nat k))
    /\ land_parcels (final r)
       = JList (l ++ omap (find_at h kvartal)
                       (seqZ (start (final r)) (Z.of_nat k))).
Proof.
  intros Hf Hl. rewrite main_opening.
  destruct (opening_same h kvartal true w) as ((Hkv & _) & Hrq).
  assert (Hop : land_parcels (opening h kvartal true w).1 = JList l).
  { unfold opening. rewrite Hf.
    pose proof (load_progress_list _ _ _ _ Hf Hl) as H.
    destruct (load_progress h (LandParcelScanner h kvartal 1 9999) w)
      as [[ok sl] wl]. exact H. }
  destruct (ask_bound _ 1 99999 stdin) as [[start_ stdin']|]; cbn; [|discriminate].
  destruct (ask_bound _ start_ 99999 stdin') as [[end_ rest]|]; cbn;
    [|discriminate].
  intros H. injection H as _ <-.
  set (sc := set_current_num start_ _).
  destruct (scan_same_config h sc (opening h kvartal true w).2) as (_ & -> & _).
  pose proof (scan_loop_fuel h (remaining sc) sc (opening h kvartal true w).2
                (le_n _)) as Hfuel.
  unfold scan.
  destruct (scan_loop (remaining sc) h sc (opening h kvartal true w).2)
    as [[e s'] w'] eqn:Hloop.
  destruct (finish_how_final h e s' w') as [_ ->]. rewrite finish_requests.
  destruct (scan_loop_trace h _ sc _ l _ _ _ Hop Hloop)
    as [->|(k & _ & Hr & Hrec & _)]; [exfalso; apply Hfuel; reflexivity|].
  exists k. cbn in Hr, Hrec. rewrite Hkv in Hr, Hrec. cbn in Hr, Hrec.
  rewrite Hr, Hrq, Hrec. split; reflexivity.
Qed.

(** X23.  Starting over: when a checkpoint of the block exists and the
    operator declines to continue, [main] removes the checkpoint and the
    spreadsheet and then runs exactly as it runs, whatever is answered, in
    a world where neither file exists. *)
Theorem main_restart_discards kvartal resume stdin w f :
  files w !! temp_file (LandParcelScanner h kvartal 1 9999) = Some f ->
  main h kvartal false stdin w
  = main h kvartal resume stdin
      (remove_file (result_file (LandParcelScanner h kvartal 1 9999))
         (remove_file (temp_file (LandParcelScanner h kvartal 1 9999)) w)).
Proof.
  intros Hf. rewrite !main_opening.
  assert (Hop : opening h kvartal false w
                = opening h kvartal resume
                    (remove_file (result_file (LandParcelScanner h kvartal 1 9999))
                       (remove_file (temp_file (LandParcelScanner h kvartal 1 9999)) w))).
  { unfold opening. rewrite Hf. cbn [files remove_file].
    rewrite lookup_delete_ne
      by (intros E; apply (LandParcelScanner_paths h kvartal 1 9999);
          symmetry; exact E).
    rewrite lookup_delete_eq. reflexivity. }
  rewrite Hop. reflexivity.
Qed.

End Resume.

(** The example block, range 2-4 asked for after a refused answer. *)
Lemma main_scans_validated_range_witness :
  exists r,
    main (host_with [3]) block false [Typed 2; Typed 1; Typed 4] empty_world
    = Some (FoundParcels, r)
    /\ 1 <= start (final r) <= end_num (final r).
Proof.
  eexists. split; [vm_compute; reflexivity|].
  eapply (main_scans_validated_range (host_with [3]) block false
            [Typed 2; Typed 1; Typed 4] empty_world).
  vm_compute. reflexivity.
Defined.

(** Resuming from [interrupted_world]. *)
Lemma main_resume_keeps_records_and_restarts_witness :
  exists r data l (k : nat),
    main (host_with [3]) block true [Blank; Typed 5] interrupted_world
    = Some (FoundParcels, r)
    /\ files interrupted_world
         !! temp_file (LandParcelScanner (host_with [3]) block 1 9999)
       = Some (JsonText data)
    /\ py_get data "land_parcels" (JList []) = Some (JList l)
    /\ land_parcels (final r)
       = JList (l ++ omap (find_at (host_with [3]) block)
                       (seqZ (start (final r)) (Z.of_nat k))).
Proof.
  assert (Hmain : exists r,
            main (host_with [3]) block true [Blank; Typed 5] interrupted_world
            = Some (FoundParcels, r))
    by (eexists; vm_compute; reflexivity).
  destruct Hmain as [r Hmain].
  assert (Hfile : exists data l,
            files interrupted_world
              !! temp_file (LandParcelScanner (host_with [3]) block 1 9999)
            = Some (JsonText data)
            /\ py_get data "land_parcels" (JList []) = Some (JList l))
    by (do 2 eexists; split; vm_compute; reflexivity).
  destruct Hfile as (data & l & Hf & Hl).
  destruct (main_resume_keeps_records_and_restarts (host_with [3]) block
              [Blank; Typed 5] interrupted_world data l FoundParcels r Hf Hl Hmain)
    as (k & _ & Hrec).
  exists r, data, l, k. repeat split; assumption.
Defined.

(** Declining to continue from [interrupted_world]. *)
Lemma main_restart_discards_witness :
  main (host_with [3]) block false [Blank; Typed 5] interrupted_world
  = main (host_with [3]) block true [Blank; Typed 5]
      (remove_file (result_file (LandParcelScanner (host_with [3]) block 1 9999))
         (remove_file (temp_file (LandParcelScanner (host_with [3]) block 1 9999))
            interrupted_world)).
Proof.
  eapply (main_restart_discards (host_with [3]) block true [Blank; Typed 5]
            interrupted_world).
  vm_compute. reflexivity.
Defined.
